(** * AG-DownGel: the fetch-then-download pipeline of [Worker.run]

    A shallow embedding of [Worker.run] (src/main.py, lines 32-169) and the
    properties of its pagination loop, its download loop and its event
    contract.

    Conventions of the model.
    - A Python [str] is a [string] that holds its UTF-8 bytes.  [strip], a
      slice and the character class given to [re.sub] work on characters
      ([Utf8]), with the white space of Unicode; a search for ASCII text
      works on the bytes, where it finds the same.  Only ASCII letters
      change case under [lower].
    - [os.path] is [posixpath].
    - Everything the worker does to its environment (HTTP requests, signals,
      directory creation, file writes) is recorded, in order, in a trace of
      [event]s.  What the environment answers ([requests.get], [urlparse],
      [os.makedirs], the file transfer) is a parameter, the [world].  A
      call to the outside returns or raises; a call that never returns (no
      timeout is set on the requests) is not modelled.
    - Exceptions are values of type [exn]; only subclasses of Python's
      [Exception] are modelled.  Emitting a signal does not raise.  An
      event records the integers given to [emit]; the slot receives them
      converted to C [int]s ([c_int]), and what that conversion does to an
      integer beyond 64 bits is outside the model.
    - The translator [self.tr] is a dictionary read from a locale file: a
      lookup or the formatting of a template can raise.  A status event
      keeps the key and the arguments of the message, and the worker record
      says for which keys the message can be built.
    - The [count] attribute of a response is an integer, as in the API's
      format.
    - [while True] is unrolled up to a bound ([fuel]); reaching the bound is
      an outcome of its own, [Fuel]. *)

From Stdlib Require Import String Ascii List ZArith Bool Lia DecimalString.
From Stdlib Require Import Sorted.
Import ListNotations.
Open Scope string_scope.
Open Scope list_scope.
Open Scope Z_scope.

(** ** Text helpers (Python [str] operations used by the worker) *)

Module Text.

(** [c in s] for a single character. *)
Fixpoint mem (c : ascii) (s : string) : bool :=
  match s with
  | EmptyString => false
  | String d r => Ascii.eqb c d || mem c r
  end.

(** [sub in s]. *)
Fixpoint contains (sub s : string) : bool :=
  String.prefix sub s ||
  match s with
  | EmptyString => false
  | String _ r => contains sub r
  end.

(** The first [n] bytes of [s]: [s[:n]] for ASCII text. *)
Fixpoint take (n : nat) (s : string) : string :=
  match n, s with
  | O, _ => EmptyString
  | _, EmptyString => EmptyString
  | S k, String c r => String c (take k r)
  end.

Definition map (f : ascii -> ascii) : string -> string :=
  fix go (s : string) : string :=
    match s with
    | EmptyString => EmptyString
    | String c r => String (f c) (go r)
    end.

Definition rev (s : string) : string :=
  string_of_list_ascii (List.rev (list_ascii_of_string s)).

(** [str.isspace] for an ASCII character: TAB..CR, FS..US and the blank. *)
Definition is_space (c : ascii) : bool :=
  let n := nat_of_ascii c in
  ((9 <=? n) && (n <=? 13))%nat || ((28 <=? n) && (n <=? 32))%nat.

Definition lower_char (c : ascii) : ascii :=
  let n := nat_of_ascii c in
  if ((65 <=? n) && (n <=? 90))%nat then ascii_of_nat (n + 32) else c.

(** [s.lower()]. *)
Definition lower : string -> string := map lower_char.

(** [not s]. *)
Definition is_empty (s : string) : bool :=
  match s with EmptyString => true | _ => false end.

(** [len(s)] and [len(l)]. *)
Definition len {A} (l : list A) : Z := Z.of_nat (List.length l).

End Text.

(** ** Characters

    The operations of [str] that go by character: a character is a code
    point, held as the bytes of its UTF-8 encoding. *)

Module Utf8.

(** A byte that continues a character (10xxxxxx). *)
Definition continues (c : ascii) : bool :=
  let n := nat_of_ascii c in ((128 <=? n) && (n <=? 191))%nat.

Definition head_continues (s : string) : bool :=
  match s with
  | String c _ => continues c
  | EmptyString => false
  end.

(** The characters of a text, in order: each is a byte with the
    continuation bytes that follow it. *)
Fixpoint chars (s : string) : list string :=
  match s with
  | EmptyString => []
  | String c r =>
      match chars r with
      | g :: gs =>
          if head_continues g then String c g :: gs
          else String c EmptyString :: g :: gs
      | [] => [String c EmptyString]
      end
  end.

(** The text of a list of characters. *)
Definition concat (l : list string) : string :=
  fold_right String.append EmptyString l.

Definition bytes (l : list Z) : string :=
  string_of_list_ascii (List.map (fun n => ascii_of_nat (Z.to_nat n)) l).

(** The white space beyond ASCII: U+0085, U+00A0, U+1680, U+2000 to U+200A,
    U+2028, U+2029, U+202F, U+205F and U+3000. *)
Definition wide_spaces : list string :=
  List.map bytes
    [[194; 133]; [194; 160]; [225; 154; 128];
     [226; 128; 128]; [226; 128; 129]; [226; 128; 130]; [226; 128; 131];
     [226; 128; 132]; [226; 128; 133]; [226; 128; 134]; [226; 128; 135];
     [226; 128; 136]; [226; 128; 137]; [226; 128; 138];
     [226; 128; 168]; [226; 128; 169]; [226; 128; 175];
     [226; 129; 159]; [227; 128; 128]].

(** [ch.isspace()] for a character, which is also what the class of white
    space of [re] matches in a [str] pattern. *)
Definition is_space (ch : string) : bool :=
  match ch with
  | String c EmptyString => Text.is_space c
  | _ => existsb (String.eqb ch) wide_spaces
  end.

Fixpoint lstrip (l : list string) : list string :=
  match l with
  | [] => []
  | g :: r => if is_space g then lstrip r else l
  end.

Fixpoint rstrip (l : list string) : list string :=
  match l with
  | [] => []
  | g :: r =>
      match rstrip r with
      | [] => if is_space g then [] else [g]
      | r' => g :: r'
      end
  end.

(** [s.strip()]. *)
Definition strip (s : string) : string := concat (rstrip (lstrip (chars s))).

(** [s[:n]]. *)
Definition take (n : nat) (s : string) : string := concat (firstn n (chars s)).

(** [len(s)]. *)
Definition len (s : string) : nat := List.length (chars s).

End Utf8.

(** ** Paths and file names *)

Module Path.

Definition slash : ascii := "/"%char.
Definition dot : ascii := "."%char.

(** [os.path.basename(p)]: what follows the last slash. *)
Fixpoint basename (p : string) : string :=
  match p with
  | EmptyString => EmptyString
  | String _ r => if Text.mem slash p then basename r else p
  end.

(** The suffix of [s] that starts at its last dot, empty without a dot. *)
Fixpoint from_last_dot (s : string) : string :=
  match s with
  | EmptyString => EmptyString
  | String c r =>
      if Text.mem dot r then from_last_dot r
      else if Ascii.eqb c dot then s else EmptyString
  end.

Fixpoint drop_dots (s : string) : string :=
  match s with
  | EmptyString => EmptyString
  | String c r => if Ascii.eqb c dot then drop_dots r else s
  end.

(** [os.path.splitext(p)[1]]: the extension is looked for after the last
    slash, and the leading dots of the last component never start one. *)
Definition splitext_ext (p : string) : string :=
  from_last_dot (drop_dots (basename p)).

(** [os.path.join(a, b)]. *)
Definition ends_with_slash (a : string) : bool :=
  match Text.rev a with
  | String c _ => Ascii.eqb c slash
  | EmptyString => false
  end.

Definition join (a b : string) : string :=
  match b with
  | String c _ =>
      if Ascii.eqb c slash then b
      else if Text.is_empty a || ends_with_slash a then (a ++ b)%string
      else (a ++ "/" ++ b)%string
  | EmptyString =>
      if Text.is_empty a || ends_with_slash a then a else (a ++ "/")%string
  end.

(** The double quote, character 34. *)
Definition dquote : ascii := Eval cbv in ascii_of_nat 34.

(** The character class of the pattern given to [re.sub] on line 133:
    less-than, greater-than, colon, double quote, slash, backslash, bar,
    question mark and star. *)
Definition illegal (c : ascii) : bool :=
  existsb (Ascii.eqb c)
    ["<"; ">"; ":"; dquote; "/"; "\"; "|"; "?"; "*"]%char.

Definition sanitize : string -> string :=
  Text.map (fun c => if illegal c then "_"%char else c).

(** No character of the illegal set occurs in [s]. *)
Fixpoint clean (s : string) : bool :=
  match s with
  | EmptyString => true
  | String c r => negb (illegal c) && clean r
  end.

End Path.

(** ** Values of the remote API's JSON, as the worker observes them *)

(** A JSON value in a field of a post or of the response envelope.  The
    worker only tests such a value for truth, formats it with [str] and, for
    a file URL, hands it to [urlparse]; a float, an array or an object is
    carried as [POther] with its truth value and its [str] text. *)
Inductive pyval : Type :=
| PNone
| PBool (b : bool)
| PInt (n : Z)
| PStr (s : string)
| POther (truthy : bool) (text : string).

(** [bool(v)]. *)
Definition truthy (v : pyval) : bool :=
  match v with
  | PNone => false
  | PBool b => b
  | PInt n => negb (n =? 0)
  | PStr s => negb (Text.is_empty s)
  | POther t _ => t
  end.

(** [str(n)] for an integer. *)
Definition str_of_Z (n : Z) : string := NilZero.string_of_int (Z.to_int n).

(** [str(v)], which is also what an f-string field renders. *)
Definition py_str (v : pyval) : string :=
  match v with
  | PNone => "None"
  | PBool true => "True"
  | PBool false => "False"
  | PInt n => str_of_Z n
  | PStr s => s
  | POther _ t => t
  end.

(** A JSON object with scalar fields, first binding of a key first. *)
Definition dict : Type := list (string * pyval).

(** [d.get(k)]. *)
Fixpoint get (k : string) (d : dict) : option pyval :=
  match d with
  | [] => None
  | (k', v) :: r => if String.eqb k k' then Some v else get k r
  end.

(** [d.get(k, dflt)]. *)
Definition get_or (k : string) (dflt : pyval) (d : dict) : pyval :=
  match get k d with Some v => v | None => dflt end.

(** An element of the post list: an object, or any other JSON value. *)
Inductive post : Type :=
| NonDict
| PostDict (d : dict).

(** The value under the [post] key of an envelope: something with a length
    that [list.extend] can iterate (an array; an object or a string would
    contribute their keys or characters, all [NonDict]), or a value with
    neither ([None], a number, a boolean). *)
Inductive seqval : Type :=
| Items (l : list post)
| Scalar.

(** The value under the [@attributes] key: an object, with its [count] when
    it has one (an integer in the API's format), or anything else. *)
Inductive attrs : Type :=
| AttrDict (count : option Z)
| AttrOther.

(** The fields [Worker.run] reads from a keyed response. *)
Record envelope : Type := {
  success : option pyval;
  message : option pyval;
  post_field : option seqval;
  attributes : option attrs
}.

(** What [response.json()] returned. *)
Inductive jsondata : Type :=
| DList (l : list post)
| DDict (d : envelope)
| DOther (type_name : string).

(** A [requests.Response]: [json] is [inl detail] when [response.json()]
    raises [ValueError]. *)
Record response : Type := {
  status_code : Z;
  text : string;
  json : string + jsondata
}.

(** ** Messages, exceptions and events *)

(** The translation keys of the status messages. *)
Inductive key : Type :=
| getting_posts | http_error | empty_response | json_error_auth | json_error
| api_error | unexpected_type | pagination_note | received_posts | no_posts
| starting_download | processed_downloaded | download_error | finished
| unexpected_error.

Definition key_eqb (a b : key) : bool :=
  match a, b with
  | getting_posts, getting_posts | http_error, http_error
  | empty_response, empty_response | json_error_auth, json_error_auth
  | json_error, json_error | api_error, api_error
  | unexpected_type, unexpected_type | pagination_note, pagination_note
  | received_posts, received_posts | no_posts, no_posts
  | starting_download, starting_download
  | processed_downloaded, processed_downloaded
  | download_error, download_error | finished, finished
  | unexpected_error, unexpected_error => true
  | _, _ => false
  end.

(** Exceptions.  [TemplateError k] stands for whatever
    [self.tr[k].format(...)] raises: [KeyError] for a missing key, or the
    error of a template that does not take the arguments. *)
Inductive exn : Type :=
| TemplateError (k : key)
| TypeError (detail : string)
| AttributeError (detail : string)
| ValueError (detail : string)
| RequestError (detail : string)
| OSError (detail : string).

(** An argument of [template.format(...)]. *)
Inductive arg : Type :=
| I (n : Z)
| S (s : string)
| V (v : pyval)
| E (e : exn)
| T (k : key).   (* the translator's own text for [k] *)

(** What the worker does to the outside, in order. *)
Inductive event : Type :=
| Request (params : dict)                  (* requests.get(base_url, params) *)
| StatusChanged (k : key) (args : list arg) (* statusChanged.emit(tr[k].format(args)) *)
| ProgressUpdated (current total : Z)      (* progressUpdated.emit(current, total) *)
| MakeDirs (path : string)                 (* os.makedirs(path, exist_ok=True) *)
| GetFile (url : string)                   (* requests.get(url, stream=True) *)
| Saved (filepath : string).               (* the file was written in full *)

(** ** The worker and its environment *)

Record worker : Type := {
  tags : string;
  user_id : string;
  api_key : string;
  download_dir : string;
  allowed_exts : list string;
  (** [self.tr], as far as [run] depends on it: whether
      [self.tr[k].format(...)] evaluates without raising *)
  usable : key -> bool
}.

(** What [requests.get] on the search endpoint does. *)
Inductive reply : Type :=
| Reply (r : response)
| Failure (e : exn).

(** The libraries and the outside world the worker calls. *)
Record world : Type := {
  (** the search endpoint, by query parameters *)
  server : dict -> reply;
  (** [urlparse(url).path], or the exception [urlparse] raises *)
  urlparse_path : string -> exn + string;
  (** [os.makedirs(path, exist_ok=True)]: the exception it raises, if any *)
  makedirs : string -> option exn;
  (** lines 153-158, the streamed transfer of [url] into [filepath], for a
      transfer that ends: the exception it raises, if any *)
  transfer : string -> string -> option exn
}.

(** The local variables of [run] that change. *)
Record locals : Type := {
  posts : list post;
  total_count : Z;
  has_total : bool;
  pid : Z;
  downloaded : Z;
  processed : Z
}.

Definition init : locals :=
  {| posts := []; total_count := 0; has_total := false; pid := 0;
     downloaded := 0; processed := 0 |}.

(** ** The monad of [run]: state, trace and control *)

(** How a piece of [run] ends: it falls through with a value, executes
    [return], raises, or the bound on loop iterations of the model is
    reached ([Fuel], not an outcome of the program). *)
Inductive result (A : Type) : Type :=
| Val (a : A)
| Ret
| Exc (e : exn)
| Fuel.

Arguments Val {A} a.
Arguments Ret {A}.
Arguments Exc {A} e.
Arguments Fuel {A}.

Definition M (A : Type) : Type := locals -> list event * locals * result A.

Definition ret {A} (a : A) : M A := fun st => ([], st, Val a).

Definition bind {A B} (m : M A) (f : A -> M B) : M B :=
  fun st =>
    match m st with
    | (t, st', Val a) =>
        match f a st' with (t', st'', r) => (t ++ t', st'', r) end
    | (t, st', Ret) => (t, st', Ret)
    | (t, st', Exc e) => (t, st', Exc e)
    | (t, st', Fuel) => (t, st', Fuel)
    end.

Notation "x <- c1 ;; c2" := (bind c1 (fun x => c2))
  (at level 61, c1 at next level, right associativity).
Notation "c1 ;; c2" := (bind c1 (fun _ => c2))
  (at level 61, right associativity).

Definition emit (ev : event) : M unit := fun st => ([ev], st, Val tt).
Definition raise {A} (e : exn) : M A := fun st => ([], st, Exc e).
Definition early_return {A} : M A := fun st => ([], st, Ret).
Definition out_of_fuel {A} : M A := fun st => ([], st, Fuel).
Definition read : M locals := fun st => ([], st, Val st).
Definition write (st : locals) : M unit := fun _ => ([], st, Val tt).

(** [try: m except Exception as e: h e]; assignments made by [m] before it
    raised are kept. *)
Definition try_catch {A} (m : M A) (h : exn -> M A) : M A :=
  fun st =>
    match m st with
    | (t, st', Exc e) =>
        match h e st' with (t', st'', r) => (t ++ t', st'', r) end
    | other => other
    end.

Definition trace_of {A} (x : list event * locals * result A) : list event :=
  fst (fst x).
Definition locals_of {A} (x : list event * locals * result A) : locals :=
  snd (fst x).
Definition result_of {A} (x : list event * locals * result A) : result A :=
  snd x.

(** ** [Worker.run] *)

Definition set_posts (st : locals) (l : list post) : locals :=
  {| posts := l; total_count := total_count st; has_total := has_total st;
     pid := pid st; downloaded := downloaded st; processed := processed st |}.

Definition set_total (st : locals) (n : Z) : locals :=
  {| posts := posts st; total_count := n; has_total := true;
     pid := pid st; downloaded := downloaded st; processed := processed st |}.

Definition set_pid (st : locals) (n : Z) : locals :=
  {| posts := posts st; total_count := total_count st;
     has_total := has_total st; pid := n; downloaded := downloaded st;
     processed := processed st |}.

Definition set_downloaded (st : locals) (n : Z) : locals :=
  {| posts := posts st; total_count := total_count st;
     has_total := has_total st; pid := pid st; downloaded := n;
     processed := processed st |}.

Definition set_processed (st : locals) (n : Z) : locals :=
  {| posts := posts st; total_count := total_count st;
     has_total := has_total st; pid := pid st; downloaded := downloaded st;
     processed := n |}.

(** [ext in exts] for a set of strings. *)
Definition in_exts (ext : string) (exts : list string) : bool :=
  existsb (String.eqb ext) exts.

Definition video_exts : list string := [".mp4"; ".webm"; ".avi"; ".mov"; ".swf"].
Definition gif_ext : string := ".gif".

(** Lines 141-146. *)
Definition subdir_of (ext : string) : string :=
  if String.eqb ext gif_ext then "GIF"
  else if in_exts ext video_exts then "videos"
  else "images".

(** Lines 127-133: the name of the file on disk, from the post identifier
    and the path of the file URL. *)
Definition target_filename (post_id : pyval) (path : string) : string :=
  let filename := Path.basename path in
  if Text.is_empty filename || negb (Text.mem Path.dot filename) then
    let ext :=
      if Text.is_empty (Path.splitext_ext path) then ".jpg"
      else Path.splitext_ext path in
    (py_str post_id ++ ext)%string
  else
    Path.sanitize (py_str post_id ++ "_" ++ filename)%string.

(** Line 134. *)
Definition target_ext (filename : string) : string :=
  Text.lower (Path.splitext_ext filename).

(** Line 57, the body excerpt [response.text.strip()[:200]]. *)
Definition excerpt (r : response) : string :=
  Utf8.take 200 (Utf8.strip (text r)).

(** Line 67, the test for an authentication requirement. *)
Definition suggests_auth (response_text : string) : bool :=
  Text.contains "Missing authentication" response_text
  || Text.contains "login_required" (Text.lower response_text).

(** The default of [data.get('message', ...)] on line 80. *)
Definition unknown_api_error : string := "Неизвестная ошибка API".

Section Run.

Variable w : worker.
Variable env : world.

(** [self.statusChanged.emit(self.tr[k].format(args))] *)
Definition emit_status (k : key) (args : list arg) : M unit :=
  if usable w k then emit (StatusChanged k args)
  else raise (TemplateError k).

(** Lines 35-46. *)
Definition params_base : dict :=
  [("page", PStr "dapi"); ("s", PStr "post"); ("q", PStr "index");
   ("limit", PInt 1000); ("json", PInt 1); ("tags", PStr (tags w))]
  ++ (if Text.is_empty (user_id w) then [] else [("user_id", PStr (user_id w))])
  ++ (if Text.is_empty (api_key w) then [] else [("api_key", PStr (api_key w))]).

(** Lines 54-55, the query parameters of the request for a page. *)
Definition params_of (page : Z) : dict :=
  params_base ++ [("pid", PInt page)].

(** Line 56. *)
Definition http_get (page : Z) : M response :=
  let params := params_of page in
  emit (Request params) ;;
  match server env params with
  | Reply r => ret r
  | Failure e => raise e
  end.

(** Lines 77-87, the keyed response: the new posts, with the total read
    while the stored total is 0. *)
Definition read_envelope (d : envelope) (response_text : string) : M seqval :=
  let success := match success d with Some v => v | None => PBool true end in
  if negb (truthy success) then
    let msg := match message d with Some v => v | None => PStr unknown_api_error end in
    emit_status api_error [V msg] ;;
    early_return
  else
    let new_posts := match post_field d with Some v => v | None => Items [] end in
    st <- read ;;
    (if total_count st =? 0 then
       match
         match attributes d with Some a => a | None => AttrDict None end
       with
       | AttrOther => raise (AttributeError "get")
       | AttrDict count =>
           match new_posts with
           | Scalar => raise (TypeError "len")
           | Items l =>
               write (set_total st
                        (match count with Some c => c | None => Text.len l end))
           end
       end
     else ret tt) ;;
    ret new_posts.

(** Lines 54-102, one turn of the [while True] loop: [true] when the loop
    goes on to the next page, [false] on [break]. *)
Definition fetch_page : M bool :=
  st <- read ;;
  response <- http_get (pid st) ;;
  let response_text := excerpt response in
  if negb (status_code response =? 200) then
    emit_status http_error [I (status_code response); S response_text] ;;
    early_return
  else if Text.is_empty response_text then
    emit_status empty_response [I (status_code response)] ;;
    early_return
  else
    match json response with
    | inl e =>
        (if suggests_auth response_text
         then emit_status json_error_auth [S response_text]
         else emit_status json_error [S e; S response_text]) ;;
        early_return
    | inr data =>
        new_posts <-
          match data with
          | DList l => ret (Items l)
          | DDict d => read_envelope d response_text
          | DOther ty =>
              emit_status unexpected_type [S ty; S response_text] ;;
              early_return
          end ;;
        match new_posts with
        | Scalar => raise (TypeError "extend")
        | Items l =>
            st <- read ;;
            write (set_posts st (posts st ++ l)) ;;
            st <- read ;;
            let current_count := Text.len (posts st) in
            total_str <-
              (if negb (has_total st) then
                 if usable w pagination_note then ret (T pagination_note)
                 else raise (TemplateError pagination_note)
               else ret (S (" / " ++ str_of_Z (total_count st))%string)) ;;
            emit (ProgressUpdated current_count
                    (if has_total st then total_count st else 0)) ;;
            emit_status received_posts [I current_count; total_str] ;;
            if Text.len l <? 1000 then ret false
            else write (set_pid st (pid st + 1)) ;; ret true
        end
    end.

(** Lines 53-102. *)
Fixpoint fetch_loop (fuel : nat) : M unit :=
  match fuel with
  | O => out_of_fuel
  | Datatypes.S fuel' =>
      more <- fetch_page ;;
      if more then fetch_loop fuel' else ret tt
  end.

(** [self.progressUpdated.emit(processed, total_posts)] *)
Definition progress (total_posts : Z) : M unit :=
  st <- read ;;
  emit (ProgressUpdated (processed st) total_posts).

(** Line 126, [urlparse(url)] and its [path]. *)
Definition parse_path (url : pyval) : M string :=
  match url with
  | PStr s =>
      match urlparse_path env s with
      | inr path => ret path
      | inl e => raise e
      end
  | _ => raise (AttributeError "decode")
  end.

(** Lines 153-158. *)
Definition fetch_file (url filepath : string) : M unit :=
  emit (GetFile url) ;;
  match transfer env url filepath with
  | None => emit (Saved filepath)
  | Some e => raise e
  end.

(** Line 149. *)
Definition make_dirs (path : string) : M unit :=
  emit (MakeDirs path) ;;
  match makedirs env path with
  | None => ret tt
  | Some e => raise e
  end.

(** Lines 117-164, the body of [for post in posts]. *)
Definition download_item (total_posts : Z) (p : post) : M unit :=
  st <- read ;;
  write (set_processed st (processed st + 1)) ;;
  match p with
  | NonDict => progress total_posts
  | PostDict d =>
      match get "file_url" d with
      | None => progress total_posts
      | Some url =>
          if negb (truthy url) then progress total_posts
          else
            let post_id := get_or "id" (PStr "") d in
            path <- parse_path url ;;
            let filename := target_filename post_id path in
            let ext := target_ext filename in
            if negb (in_exts ext (allowed_exts w)) then progress total_posts
            else
              let subdir := subdir_of ext in
              let subdir_path := Path.join (download_dir w) subdir in
              make_dirs subdir_path ;;
              let filepath := Path.join subdir_path filename in
              try_catch
                (fetch_file (py_str url) filepath ;;
                 st <- read ;;
                 write (set_downloaded st (downloaded st + 1)) ;;
                 st <- read ;;
                 if processed st mod 10 =? 0 then
                   emit_status processed_downloaded
                     [I (processed st); I total_posts; I (downloaded st)]
                 else ret tt)
                (fun e => emit_status download_error [V url; E e]) ;;
              progress total_posts
      end
  end.

(** Lines 116-164. *)
Fixpoint download_loop (total_posts : Z) (l : list post) : M unit :=
  match l with
  | [] => ret tt
  | p :: r => download_item total_posts p ;; download_loop total_posts r
  end.

(** Lines 34-167, the body of the outer [try]. *)
Definition run_body (fuel : nat) : M unit :=
  write init ;;
  emit_status getting_posts [] ;;
  fetch_loop fuel ;;
  st <- read ;;
  if Text.len (posts st) =? 0 then
    emit_status no_posts [] ;;
    early_return
  else
    emit_status starting_download [] ;;
    let total_posts := Text.len (posts st) in
    download_loop total_posts (posts st) ;;
    st <- read ;;
    let skipped := total_posts - downloaded st in
    emit_status finished
      [I (processed st); I total_posts; I (downloaded st); I skipped;
       S (download_dir w)].

(** Lines 32-169. *)
Definition run (fuel : nat) : M unit :=
  try_catch (run_body fuel)
    (fun e => emit_status unexpected_error [E e]).

End Run.

(** ** What the properties observe of a run *)

(** A record the loop passes over: not an object, or without a truthy
    [file_url] (lines 118 and 122). *)
Definition unusable (p : post) : bool :=
  match p with
  | NonDict => true
  | PostDict d =>
      match get "file_url" d with
      | None => true
      | Some url => negb (truthy url)
      end
  end.

(** The counters an event reports, against the size of the batch. *)
Definition counters_ok (total : Z) (ev : event) : Prop :=
  match ev with
  | ProgressUpdated p t => t = total /\ 0 <= p <= total
  | StatusChanged processed_downloaded args =>
      exists p d, args = [I p; I total; I d] /\ 0 <= d <= p /\ p <= total
  | _ => True
  end.

(** The counters as line 109 and 110 set them. *)
Definition reset_counters (st : locals) : locals :=
  set_processed (set_downloaded st 0) 0.

(** The aggregate status of line 161. *)
Definition is_aggregate (ev : event) : bool :=
  match ev with
  | StatusChanged processed_downloaded _ => true
  | _ => false
  end.

(** The keys of the status events of a trace, in order. *)
Definition statuses (t : list event) : list key :=
  flat_map (fun ev => match ev with StatusChanged k _ => [k] | _ => [] end) t.

(** The arguments of the progress events of a trace, in order. *)
Definition progresses (t : list event) : list (Z * Z) :=
  flat_map (fun ev => match ev with ProgressUpdated c n => [(c, n)] | _ => [] end) t.

(** The number of search requests in a trace. *)
Definition requests (t : list event) : nat :=
  List.length (filter (fun ev => match ev with Request _ => true | _ => false end) t).

(** The post list a response carries: the parsed array itself (line 75), or
    what [data.get("post", [])] gives on a keyed response (line 83). *)
Definition page_posts (r : response) : option (list post) :=
  match json r with
  | inr (DList l) => Some l
  | inr (DDict d) =>
      match post_field d with
      | Some (Items l) => Some l
      | Some Scalar => None
      | None => Some []
      end
  | _ => None
  end.


(** The numbers a progress event of the fetch phase is emitted with, given
    the locals at the end of the turn (line 98). *)
Definition reports_total (st' : locals) (ev : event) : Prop :=
  match ev with
  | ProgressUpdated c t =>
      c = Text.len (posts st') /\
      t = if has_total st' then total_count st' else 0
  | _ => True
  end.

(** The total a keyed response sets when it is read (lines 85-86). *)
Definition total_of (d : envelope) : Z :=
  match attributes d with
  | Some (AttrDict (Some c)) => c
  | _ => Text.len (match post_field d with Some (Items l) => l | _ => [] end)
  end.

(** The post list of a response that lines 58-90 let through to line 92,
    for the locals at the start of the turn: the status is 200 and the
    excerpt is not empty; the body parses to an array, or to a keyed
    response whose [success] is absent or truthy and whose [post] is absent
    or a list; and when the stored total is 0, so that line 85 is reached,
    its [@attributes] are absent or an object. *)
Definition accepted (st : locals) (r : response) : option (list post) :=
  if negb (status_code r =? 200) || Text.is_empty (excerpt r) then None
  else
    match json r with
    | inr (DList l) => Some l
    | inr (DDict d) =>
        let flag := match success d with Some v => v | None => PBool true end in
        let attributes_pass :=
          negb (total_count st =? 0)
          || match attributes d with Some AttrOther => false | _ => true end in
        if truthy flag && attributes_pass then
          match post_field d with
          | Some (Items l) => Some l
          | Some Scalar => None
          | None => Some []
          end
        else None
    | _ => None
    end.

(** The locals after an accepted page whose posts are [l] (lines 84-92),
    before line 102. *)
Definition page_locals (st : locals) (r : response) (l : list post) : locals :=
  set_posts
    (match json r with
     | inr (DDict d) =>
         if total_count st =? 0 then set_total st (total_of d) else st
     | _ => st
     end)
    (posts st ++ l).

(** Lines 94-97, what the status of line 99 says about the total. *)
Definition total_note (st : locals) : arg :=
  if has_total st then S (" / " ++ str_of_Z (total_count st))%string
  else T pagination_note.

(** What a slot connected to a [pyqtSignal(int, int)] receives for an
    integer given to [emit] (line 21): the value as a C [int], reduced
    modulo 2^32 to the range from -2^31 to 2^31 - 1 (for an integer that
    fits in 64 bits). *)
Definition c_int (n : Z) : Z := (n + 2 ^ 31) mod 2 ^ 32 - 2 ^ 31.

(** The arguments [update_progress] is called with for an event of the
    worker (the connection of line 345). *)
Definition received (ev : event) : option (Z * Z) :=
  match ev with
  | ProgressUpdated c t => Some (c_int c, c_int t)
  | _ => None
  end.

(** The statuses that end the fetch phase with a [return]. *)
Definition fetch_failure (k : key) : bool :=
  match k with
  | http_error | empty_response | json_error_auth | json_error | api_error
  | unexpected_type => true
  | _ => false
  end.

(** The trace ends with a status event whose key satisfies [P]. *)
Definition ends_with (P : key -> bool) (t : list event) : Prop :=
  exists t0 k args, t = t0 ++ [StatusChanged k args] /\ P k = true.

(** ** Sample inputs *)

Module Sample.

(** The path of a URL of the form [scheme://host/path?query#fragment]
    (no parameters after a semicolon), as [urlparse] gives it. *)
Fixpoint after_scheme (s : string) : option string :=
  match s with
  | EmptyString => None
  | String _ r =>
      if String.prefix "://" s then Some (String.substring 3 (String.length s) s)
      else after_scheme r
  end.

Fixpoint until (stop : ascii -> bool) (s : string) : string :=
  match s with
  | EmptyString => EmptyString
  | String c r => if stop c then EmptyString else String c (until stop r)
  end.

Fixpoint from (stop : ascii -> bool) (s : string) : string :=
  match s with
  | EmptyString => EmptyString
  | String c r => if stop c then s else from stop r
  end.

Definition ends_path (c : ascii) : bool :=
  Ascii.eqb c "?"%char || Ascii.eqb c "#"%char.

Definition http_url_path (url : string) : string :=
  match after_scheme url with
  | Some rest =>
      until ends_path
        (from (fun c => Ascii.eqb c "/"%char || ends_path c) rest)
  | None => until ends_path url
  end.

(** A server that answers by page number. *)
Definition by_page (pages : Z -> reply) (params : dict) : reply :=
  match get "pid" params with
  | Some (PInt n) => pages n
  | _ => Failure (RequestError "no page")
  end.

(** A world where directories can be made and every transfer succeeds. *)
Definition net (pages : Z -> reply) : world :=
  {| server := by_page pages;
     urlparse_path := fun url => inr (http_url_path url);
     makedirs := fun _ => None;
     transfer := fun _ _ => None |}.

(** The same world with every transfer failing. *)
Definition broken_net (pages : Z -> reply) : world :=
  {| server := by_page pages;
     urlparse_path := fun url => inr (http_url_path url);
     makedirs := fun _ => None;
     transfer := fun _ _ => Some (RequestError "404 Client Error") |}.

Definition image_exts : list string :=
  [".jpg"; ".jpeg"; ".png"; ".bmp"; ".webp"; ".tga"].

(** The three check boxes of the main window ticked (lines 317-323). *)
Definition all_exts : list string :=
  image_exts ++ [".gif"] ++ video_exts.

(** A worker with a complete translation table. *)
Definition worker_with (exts : list string) : worker :=
  {| tags := "cat"; user_id := ""; api_key := "";
     download_dir := "downloads/cat"; allowed_exts := exts;
     usable := fun _ => true |}.

(** A worker whose translation table lacks the keys [missing] holds. *)
Definition worker_lacking (missing : key -> bool) : worker :=
  {| tags := "cat"; user_id := ""; api_key := "";
     download_dir := "downloads/cat"; allowed_exts := all_exts;
     usable := fun k => negb (missing k) |}.

(** A 200 response with the given parsed body. *)
Definition page (d : jsondata) : reply :=
  Reply {| status_code := 200; text := "{...}"; json := inr d |}.

(** A response whose body is not JSON. *)
Definition garbage (code : Z) (body : string) : reply :=
  Reply {| status_code := code; text := body;
           json := inl "Expecting value: line 1 column 1 (char 0)" |}.

Definition keyed (l : list post) (count : option Z) : jsondata :=
  DDict {| success := None; message := None; post_field := Some (Items l);
           attributes := Some (AttrDict count) |}.

(** A keyed response without [@attributes]. *)
Definition bare_keyed (l : list post) : jsondata :=
  DDict {| success := None; message := None; post_field := Some (Items l);
           attributes := None |}.

Definition a_post (id : Z) (url : string) : post :=
  PostDict [("id", PInt id); ("file_url", PStr url)].

Definition no_page : Z -> reply := fun _ => Failure (RequestError "down").

End Sample.

(** ** What further properties observe of a trace *)

(** The query parameters of the search requests of a trace, in order. *)
Definition request_params (t : list event) : list dict :=
  flat_map (fun ev => match ev with Request p => [p] | _ => [] end) t.

(** The files written in full, in order. *)
Definition saved_files (t : list event) : list string :=
  flat_map (fun ev => match ev with Saved f => [f] | _ => [] end) t.

(** The directories [os.makedirs] was called on, in order. *)
Definition made_dirs (t : list event) : list string :=
  flat_map (fun ev => match ev with MakeDirs d => [d] | _ => [] end) t.

(** An effect of the download phase: a directory, a file request, a file. *)
Definition is_download_effect (ev : event) : bool :=
  match ev with
  | MakeDirs _ | GetFile _ | Saved _ => true
  | _ => false
  end.

(** Where line 150 puts a file called [filename]. *)
Definition filepath_of (w : worker) (filename : string) : string :=
  Path.join (Path.join (download_dir w) (subdir_of (target_ext filename)))
    filename.

(** A file path in a category folder of the download directory, under a
    name whose extension is allowed. *)
Definition well_placed (w : worker) (f : string) : Prop :=
  exists filename,
    f = filepath_of w filename /\
    in_exts (target_ext filename) (allowed_exts w) = true.

(** A record whose file URL, when it has a truthy one, is a string that
    [urlparse] accepts. *)
Definition parsable (env : world) (p : post) : Prop :=
  match p with
  | NonDict => True
  | PostDict d =>
      match get "file_url" d with
      | None => True
      | Some url =>
          truthy url = true ->
          exists s path, url = PStr s /\ urlparse_path env s = inr path
      end
  end.

(** The pairs (n + 1, total), ..., (n + k, total). *)
Definition counting (n total : Z) (k : nat) : list (Z * Z) :=
  List.map (fun i => (n + Z.of_nat i, total)) (seq 1 k).

(** ** The main window ([MainWindow], lines 172-359) *)

(** [s.endswith(suffix)]. *)
Fixpoint endswith (suffix s : string) : bool :=
  String.eqb suffix s ||
  match s with
  | EmptyString => false
  | String _ r => endswith suffix r
  end.

(** [s[:-n]] for a positive [n], where the last [n] characters of [s] are
    ASCII (line 180 cuts [.json] off a name that ends with it). *)
Definition drop_last (n : nat) (s : string) : string :=
  Text.take (String.length s - n) s.

(** [re.sub(pattern, '', s)] for a pattern that is one negated character
    class: the characters of the class [keep] stay. *)
Definition keep_chars (keep : string -> bool) (s : string) : string :=
  Utf8.concat (filter keep (Utf8.chars s)).

(** An ASCII letter, a digit or the hyphen. *)
Definition word_byte (c : ascii) : bool :=
  let n := nat_of_ascii c in
  ((97 <=? n) && (n <=? 122))%nat || ((65 <=? n) && (n <=? 90))%nat
  || ((48 <=? n) && (n <=? 57))%nat || Ascii.eqb c "-"%char.

(** The characters line 333 keeps: ASCII letters, digits and the hyphen,
    and white space, of Unicode as the pattern is a [str]. *)
Definition dir_char (ch : string) : bool :=
  match ch with
  | String c EmptyString => word_byte c || Text.is_space c
  | _ => Utf8.is_space ch
  end.

(** Lines 333-335, the name of the folder of a query. *)
Definition dir_name (original_tags : string) : string :=
  let name := Utf8.take 50 (Utf8.strip (keep_chars dir_char original_tags)) in
  if Text.is_empty name then "downloads" else name.

(** [s.replace(' ', '_')]. *)
Definition underscore_blanks : string -> string :=
  Text.map (fun c => if Ascii.eqb c " "%char then "_"%char else c).

(** The extensions of the first check box (line 319). *)
Definition image_exts : list string :=
  [".jpg"; ".jpeg"; ".png"; ".bmp"; ".webp"; ".tga"].

(** The translation keys [start_download] uses. *)
Inductive ui_key : Type :=
| enter_tags_error | searching_tags | select_file_type_error.

(** What the user has entered and ticked, and the translation table. *)
Record form : Type := {
  user_id_edit : string;
  api_key_edit : string;
  tags_edit : string;
  no_ai_cb : bool;
  images_cb : bool;
  gif_cb : bool;
  video_cb : bool;
  (** [self.translator]: whether the message of a key of the window, and
      of a key of the worker, can be built without an exception *)
  window_usable : ui_key -> bool;
  translator : key -> bool
}.

(** What a slot of the window does, in order. *)
Inductive ui_event : Type :=
| SetStatus (k : ui_key) (args : list arg) (* status_label.setText(...) *)
| SaveConfig (user_id api_key : string)    (* lines 305-307, written in full *)
| MakeDir (path : string)                  (* os.makedirs(path, exist_ok=True) *)
| SetButtonEnabled (b : bool)              (* download_btn.setEnabled *)
| SetProgressVisible (b : bool)            (* progress.setVisible *)
| SetRange (minimum maximum : Z)           (* progress.setRange *)
| SetValue (v : Z)                         (* progress.setValue *)
| Start (w : worker).                      (* lines 343-347 *)

(** What a slot can raise: the exception of a message of the window that
    cannot be built, or one that a library call raised. *)
Inductive ui_exn : Type :=
| NoMessage (k : ui_key)
| Library (e : exn).

(** How [start_download] ends: it returns without a worker, it returns with
    the worker started, or it raises. *)
Inductive outcome : Type :=
| Rejected
| Started (w : worker)
| Crashed (e : ui_exn).

(** Lines 317-323. *)
Definition ticked_exts (f : form) : list string :=
  (if images_cb f then image_exts else [])
  ++ (if gif_cb f then [".gif"] else [])
  ++ (if video_cb f then video_exts else []).

(** Lines 295-347.  [write_config user_id api_key] is what lines 305-307 do
    to the configuration parser and the file: the exception they raise, if
    any.  [os.makedirs] is the one of the world of the worker. *)
Definition start_download
    (f : form) (env : world) (write_config : string -> string -> option exn)
  : list ui_event * outcome :=
  let user_id := Utf8.strip (user_id_edit f) in
  let api_key := Utf8.strip (api_key_edit f) in
  let tags := Utf8.strip (tags_edit f) in
  if Text.is_empty tags then
    if window_usable f enter_tags_error
    then ([SetStatus enter_tags_error []], Rejected)
    else ([], Crashed (NoMessage enter_tags_error))
  else
    match write_config user_id api_key with
    | Some e => ([], Crashed (Library e))
    | None =>
        let saved := [SaveConfig user_id api_key] in
        let original_tags := tags in
        let tags :=
          if no_ai_cb f then (tags ++ " -ai-generated")%string else tags in
        if negb (window_usable f searching_tags)
        then (saved, Crashed (NoMessage searching_tags))
        else
          let searching :=
            saved
            ++ [SetStatus searching_tags
                  [S tags; S (Utf8.take 50 (underscore_blanks original_tags))]] in
          let allowed_exts := ticked_exts f in
          match allowed_exts with
          | [] =>
              if window_usable f select_file_type_error
              then (searching ++ [SetStatus select_file_type_error []], Rejected)
              else (searching, Crashed (NoMessage select_file_type_error))
          | _ :: _ =>
              let base_downloads := "downloads" in
              match makedirs env base_downloads with
              | Some e => (searching ++ [MakeDir base_downloads], Crashed (Library e))
              | None =>
                  let download_dir :=
                    Path.join base_downloads (dir_name original_tags) in
                  match makedirs env download_dir with
                  | Some e =>
                      (searching ++ [MakeDir base_downloads; MakeDir download_dir],
                       Crashed (Library e))
                  | None =>
                      let w :=
                        {| tags := tags; user_id := user_id;
                           api_key := api_key; download_dir := download_dir;
                           allowed_exts := allowed_exts;
                           usable := translator f |} in
                      (searching
                       ++ [MakeDir base_downloads; MakeDir download_dir;
                           SetButtonEnabled false; SetProgressVisible true;
                           SetValue 0; Start w],
                       Started w)
                  end
              end
          end
    end.

(** Lines 349-354. *)
Definition update_progress (current total : Z) : list ui_event :=
  if total >? 0 then [SetRange 0 total; SetValue current]
  else [SetRange 0 0].

(** Lines 356-359. *)
Definition on_finished : list ui_event :=
  [SetButtonEnabled true; SetProgressVisible false; SetRange 0 100].

(** What the progress signal of a trace of the worker makes the window do
    (line 345), for numbers within the range of a C [int], which the slot
    receives as they were emitted. *)
Definition bar_calls (t : list event) : list ui_event :=
  flat_map (fun ev => match ev with
                      | ProgressUpdated c n => update_progress c n
                      | _ => []
                      end) t.

(** The category folders of the ticked check boxes. *)
Definition ticked_dirs (f : form) : list string :=
  (if images_cb f then ["images"] else [])
  ++ (if gif_cb f then ["GIF"] else [])
  ++ (if video_cb f then ["videos"] else []).

(** Every byte of [s] satisfies [P]. *)
Definition all_chars (P : ascii -> bool) (s : string) : bool :=
  forallb P (list_ascii_of_string s).

(** A character that starts with a byte of its own: a byte that continues
    nothing, followed by continuation bytes only. *)
Definition fresh (g : string) : bool :=
  match g with
  | String c t => negb (Utf8.continues c) && all_chars Utf8.continues t
  | EmptyString => false
  end.

(** A byte followed by continuation bytes only. *)
Definition trails (g : string) : bool :=
  match g with
  | String c t => all_chars Utf8.continues t
  | EmptyString => false
  end.

(** A list of characters as [Utf8.chars] gives them: only the first can
    start with a continuation byte. *)
Definition regular (l : list string) : bool :=
  match l with
  | [] => true
  | g :: r => trails g && forallb fresh r
  end.

(** The bytes of the characters line 333 keeps: those of the ASCII ones,
    and bytes beyond ASCII. *)
Definition dir_byte (c : ascii) : bool :=
  word_byte c || Text.is_space c || (128 <=? nat_of_ascii c)%nat.

(** *** Locale files *)

(** Lines 178-185: the languages offered, from the listing of the [locales]
    directory ([None] when the directory does not exist). *)
Definition languages (listing : option (list string)) : list string :=
  let found :=
    match listing with
    | Some files =>
        List.map (drop_last 5) (filter (endswith ".json") files)
    | None => []
    end in
  match found with
  | [] => ["en"]
  | _ => found
  end.

(** Line 271. *)
Definition locale_path (lang : string) : string :=
  ("locales/" ++ lang ++ ".json")%string.

(** How a call of [load_translator] ends: with a table, with the exception
    of [open] or [json.load], or not within the bound on the depth of the
    recursion. *)
Inductive loaded (A : Type) : Type :=
| Table (t : A)
| LoadError (e : exn)
| TooDeep.

Arguments Table {A} t.
Arguments LoadError {A} e.
Arguments TooDeep {A}.

(** Lines 270-275.  [files path] is [None] when [os.path.exists(path)] is
    false, and otherwise what [open] and [json.load] give. *)
Fixpoint load_translator {A : Type} (files : string -> option (exn + A))
    (depth : nat) (lang : string) : loaded A :=
  match depth with
  | O => TooDeep
  | Datatypes.S depth' =>
      match files (locale_path lang) with
      | Some (inr table) => Table table
      | Some (inl e) => LoadError e
      | None => load_translator files depth' "en"
      end
  end.

(** A call on the progress bar in determinate mode for [total] steps: the
    range from 0 to a positive [total], or a value from 1 to [total]. *)
Definition determinate (total : Z) (u : ui_event) : Prop :=
  match u with
  | SetRange lo hi => lo = 0 /\ hi = total /\ 0 < total
  | SetValue v => 1 <= v <= total
  | _ => False
  end.

(** A form with tags and the three boxes ticked or not. *)
Definition sample_form (tags : string) (images gif video : bool) : form :=
  {| user_id_edit := " 42 "; api_key_edit := "abc"; tags_edit := tags;
     no_ai_cb := true; images_cb := images; gif_cb := gif; video_cb := video;
     window_usable := fun _ => true; translator := fun _ => true |}.

(** The characters of the decimal text of an integer. *)
Definition decimal_char (c : ascii) : bool :=
  let n := nat_of_ascii c in
  ((48 <=? n) && (n <=? 57))%nat || Ascii.eqb c "-"%char.

(** * Properties *)

(** ** Proof tools *)

Ltac unfold_item :=
  unfold download_item, bind, read, write, progress, emit, parse_path,
    make_dirs, fetch_file, try_catch, emit_status, raise, ret,
    trace_of, locals_of, result_of.

(** Splits on the tests an item goes through, outermost first. *)
Ltac split_item :=
  repeat match goal with
    | |- context [match ?x with _ => _ end] =>
        lazymatch x with
        | context [match _ with _ => _ end] => fail
        | _ => destruct x eqn:?; cbn
        end
    end.

Arguments str_of_Z : simpl never.
Arguments excerpt : simpl never.
Arguments suggests_auth : simpl never.
Arguments params_of : simpl never.

Ltac unfold_page :=
  unfold fetch_page, http_get, read_envelope, bind, read, write, emit,
    emit_status, raise, ret, early_return, trace_of, locals_of, result_of.

(** Splits on the tests a page goes through, outermost first. *)
Ltac split_page :=
  repeat match goal with
    | |- context [match ?x with _ => _ end] =>
        lazymatch x with
        | context [match _ with _ => _ end] => fail
        | _ => destruct x eqn:?; cbn
        end
    | |- context [if ?x then _ else _] =>
        lazymatch x with
        | context [if _ then _ else _] => fail
        | context [match _ with _ => _ end] => fail
        | _ => destruct x eqn:?; cbn
        end
    end.

(** ** Text and path lemmas *)

Lemma clean_app (a b : string) :
  Path.clean (a ++ b)%string = Path.clean a && Path.clean b.
Proof.
  induction a as [|c a IH]; simpl; [reflexivity|].
  rewrite IH. now rewrite andb_assoc.
Qed.

Lemma clean_sanitize (s : string) : Path.clean (Path.sanitize s) = true.
Proof.
  induction s as [|c s IH]; simpl; [reflexivity|].
  fold (Path.sanitize s). rewrite IH, andb_true_r.
  destruct (Path.illegal c) eqn:Hc; [reflexivity|now rewrite Hc].
Qed.

Lemma sanitize_app (a b : string) :
  Path.sanitize (a ++ b)%string = (Path.sanitize a ++ Path.sanitize b)%string.
Proof.
  induction a as [|c a IH]; simpl; [reflexivity|].
  fold (Path.sanitize (a ++ b)%string). fold (Path.sanitize a).
  now rewrite IH.
Qed.

Lemma sanitize_clean (s : string) :
  Path.clean s = true -> Path.sanitize s = s.
Proof.
  induction s as [|c s IH]; simpl; [reflexivity|].
  fold (Path.sanitize s). intros H. apply andb_true_iff in H as [Hc Hs].
  apply negb_true_iff in Hc. rewrite Hc, (IH Hs). reflexivity.
Qed.

Lemma prefix_app (a b : string) : String.prefix a (a ++ b)%string = true.
Proof.
  induction a as [|c a IH]; simpl.
  - now destruct b.
  - destruct (ascii_dec c c); [exact IH|congruence].
Qed.

Lemma from_last_dot_nodot (s : string) :
  Text.mem Path.dot s = false -> Path.from_last_dot s = EmptyString.
Proof.
  induction s as [|c s IH]; cbn [Text.mem Path.from_last_dot]; [reflexivity|].
  intros H. apply orb_false_iff in H as [Hc Hs].
  rewrite Hs. rewrite Ascii.eqb_sym in Hc. now rewrite Hc.
Qed.

Lemma drop_dots_nodot (s : string) :
  Text.mem Path.dot s = false -> Path.drop_dots s = s.
Proof.
  destruct s as [|c s]; cbn [Text.mem Path.drop_dots]; [reflexivity|].
  intros H. apply orb_false_iff in H as [Hc _].
  rewrite Ascii.eqb_sym in Hc. now rewrite Hc.
Qed.

(** Without a dot in the last component of a path, [splitext] finds no
    extension: the extension detected on line 129 is always empty. *)
Lemma splitext_ext_nodot (path : string) :
  Text.is_empty (Path.basename path) || negb (Text.mem Path.dot (Path.basename path)) = true ->
  Path.splitext_ext path = EmptyString.
Proof.
  unfold Path.splitext_ext. intros H.
  assert (Hd : Text.mem Path.dot (Path.basename path) = false).
  { destruct (Path.basename path) as [|c b]; [reflexivity|].
    cbn [Text.is_empty orb] in H. now apply negb_true_iff in H. }
  rewrite (drop_dots_nodot _ Hd). now apply from_last_dot_nodot.
Qed.

(** The decimal text of an integer holds no illegal character. *)
Lemma clean_str_of_Z (n : Z) : Path.clean (str_of_Z n) = true.
Proof.
  assert (Hu : forall d, Path.clean (NilEmpty.string_of_uint d) = true).
  { induction d; cbn [NilEmpty.string_of_uint Path.clean]; try reflexivity;
      rewrite IHd; reflexivity. }
  assert (Hz : forall d, Path.clean (NilZero.string_of_uint d) = true).
  { intros d. destruct d; try reflexivity; apply (Hu _). }
  unfold str_of_Z, NilZero.string_of_int.
  destruct (Z.to_int n) as [d|d]; [apply Hz|].
  cbn [Path.clean]. rewrite Hz. reflexivity.
Qed.

(** ** The library functions on sample inputs *)

Example splitext_dotfile : Path.splitext_ext ".jpg" = "".
Proof. reflexivity. Qed.

Example splitext_last_dot : Path.splitext_ext "/a.b/c..tar.GZ" = ".GZ".
Proof. reflexivity. Qed.

Example splitext_dir_dot : Path.splitext_ext "/a.b/c" = "".
Proof. reflexivity. Qed.

Example splitext_trailing_dot : Path.splitext_ext "/a/b." = ".".
Proof. reflexivity. Qed.

Example basename_of_dir : Path.basename "/images/ab/" = "".
Proof. reflexivity. Qed.

Example join_dirs : Path.join "downloads/cat" "GIF" = "downloads/cat/GIF".
Proof. reflexivity. Qed.

Example join_absolute : Path.join "downloads/cat/images" "/etc/x.jpg" = "/etc/x.jpg".
Proof. reflexivity. Qed.

Example strip_then_lower : Text.lower (Utf8.strip "  Login_Required ") = "login_required".
Proof. reflexivity. Qed.

Example str_of_negative : str_of_Z (-12) = "-12".
Proof. reflexivity. Qed.

Example str_of_zero : str_of_Z 0 = "0".
Proof. reflexivity. Qed.

Example sample_url_path :
  Sample.http_url_path "https://img.example/images/ab/f.PNG?x=1#top" = "/images/ab/f.PNG".
Proof. reflexivity. Qed.

Example sanitize_all :
  Path.clean "a<b>c:d/e|f?g*h" = false /\
  Path.sanitize "a<b>c:d/e|f?g*h" = "a_b_c_d_e_f_g_h".
Proof. split; reflexivity. Qed.

(** A whole run: one page of five records, two of them downloaded. *)
Example run_one_page :
  let batch :=
    [Sample.a_post 7 "https://img.example/images/ab/f.PNG"; NonDict;
     PostDict [("file_url", PStr "https://img.example/images/ab/file")];
     Sample.a_post 9 "https://h/a.gif"; Sample.a_post 10 "https://h/a.txt"] in
  let w := Sample.worker_with Sample.all_exts in
  trace_of (run w (Sample.net (fun _ => Sample.page (Sample.keyed batch (Some 5)))) 5 init)
  = [StatusChanged getting_posts []; Request (params_of w 0);
     ProgressUpdated 5 5; StatusChanged received_posts [I 5; S " / 5"];
     StatusChanged starting_download [];
     MakeDirs "downloads/cat/images";
     GetFile "https://img.example/images/ab/f.PNG";
     Saved "downloads/cat/images/7_f.PNG"; ProgressUpdated 1 5;
     ProgressUpdated 2 5; ProgressUpdated 3 5;
     MakeDirs "downloads/cat/GIF"; GetFile "https://h/a.gif";
     Saved "downloads/cat/GIF/9_a.gif"; ProgressUpdated 4 5;
     ProgressUpdated 5 5;
     StatusChanged finished [I 5; I 5; I 2; I 3; S "downloads/cat"]].
Proof. reflexivity. Qed.

(** ** The file name on disk *)

(** C7, as stated, fails: a post whose identifier is the string [a:b] and
    whose URL path ends in [x<y] (illegal character, no extension) is stored
    under [a:b.jpg], and with the URL path ending in [x<y.png] under
    [a_b_x_y.png], which does not start with the identifier. *)
Lemma C7_dirty_identifier_reaches_disk :
  let p := PostDict [("id", PStr "a:b"); ("file_url", PStr "https://h/x<y")] in
  Path.clean (Path.basename "/x<y") = false /\
  target_filename (PStr "a:b") "/x<y" = "a:b.jpg" /\
  Path.clean (target_filename (PStr "a:b") "/x<y") = false /\
  trace_of (download_item (Sample.worker_with Sample.all_exts)
              (Sample.net Sample.no_page) 1 p init)
  = [MakeDirs "downloads/cat/images"; GetFile "https://h/x<y";
     Saved "downloads/cat/images/a:b.jpg"; ProgressUpdated 1 1] /\
  target_filename (PStr "a:b") "/x<y.png" = "a_b_x_y.png" /\
  String.prefix "a:b" (target_filename (PStr "a:b") "/x<y.png") = false.
Proof. vm_compute. repeat split; reflexivity. Qed.

(** The two branches of lines 128-133. *)
Lemma target_filename_spec (post_id : pyval) (path : string) :
  let base := Path.basename path in
  let stored := target_filename post_id path in
  (Text.is_empty base || negb (Text.mem Path.dot base) = false ->
   stored = Path.sanitize (py_str post_id ++ "_" ++ base)%string /\
   Path.clean stored = true) /\
  (Text.is_empty base || negb (Text.mem Path.dot base) = true ->
   stored = (py_str post_id ++ ".jpg")%string) /\
  (Path.clean (py_str post_id) = true ->
   Path.clean stored = true /\ String.prefix (py_str post_id) stored = true).
Proof.
  cbv zeta. unfold target_filename.
  destruct (Text.is_empty (Path.basename path)
            || negb (Text.mem Path.dot (Path.basename path))) eqn:Hb.
  - rewrite (splitext_ext_nodot path Hb). cbn [Text.is_empty].
    split; [discriminate|]. split; [reflexivity|].
    intros Hid. rewrite clean_app, Hid, prefix_app. now split.
  - split; [intros _; split; [reflexivity|apply clean_sanitize]|].
    split; [discriminate|].
    intros Hid. split; [apply clean_sanitize|].
    rewrite sanitize_app, (sanitize_clean _ Hid). apply prefix_app.
Qed.

(** C7, amended: when the URL's last path component is non-empty and has a
    dot, the stored name is the sanitized [{id}_{basename}] and holds no
    illegal character; otherwise it is the identifier followed by [.jpg];
    and whenever the text of the identifier holds no illegal character, as
    it does for every integer identifier, the stored name holds none and
    starts with the identifier, in both branches. *)
Theorem C7_stored_name (post_id : pyval) (path : string) :
  let base := Path.basename path in
  let stored := target_filename post_id path in
  (Text.is_empty base || negb (Text.mem Path.dot base) = false ->
   stored = Path.sanitize (py_str post_id ++ "_" ++ base)%string /\
   Path.clean stored = true) /\
  (Text.is_empty base || negb (Text.mem Path.dot base) = true ->
   stored = (py_str post_id ++ ".jpg")%string) /\
  (Path.clean (py_str post_id) = true ->
   Path.clean stored = true /\ String.prefix (py_str post_id) stored = true) /\
  (forall n : Z,
      Path.clean (target_filename (PInt n) path) = true /\
      String.prefix (str_of_Z n) (target_filename (PInt n) path) = true).
Proof.
  cbv zeta.
  destruct (target_filename_spec post_id path) as (Hord & Hsyn & Hid).
  split; [exact Hord|]. split; [exact Hsyn|]. split; [exact Hid|].
  intros n.
  apply (target_filename_spec (PInt n) path). apply clean_str_of_Z.
Qed.

(** The amended C7 at identifier 7 and the path [/images/ab/fi:le.JPG]. *)
Lemma C7_stored_name_witness :
  Path.clean (py_str (PInt 7)) = true /\
  target_filename (PInt 7) "/images/ab/fi:le.JPG" = "7_fi_le.JPG" /\
  Path.clean (target_filename (PInt 7) "/images/ab/fi:le.JPG") = true /\
  String.prefix (py_str (PInt 7)) (target_filename (PInt 7) "/images/ab/fi:le.JPG") = true.
Proof.
  split; [reflexivity|].
  split; [reflexivity|].
  apply (proj1 (proj2 (proj2 (C7_stored_name (PInt 7) "/images/ab/fi:le.JPG")))).
  reflexivity.
Defined.

(** ** The download loop, item by item *)

(** C3: for a record that is not an object or has no truthy file URL, the
    item emits exactly one progress event (processed + 1, total), adds one
    to [processed], leaves [downloaded] as it was and falls through without
    an exception; the loop then goes on with the remaining items. *)
Theorem C3_unusable_record_counted_not_downloaded
    (w : worker) (env : world) (total : Z) (p : post) (rest : list post)
    (st : locals) :
  unusable p = true ->
  let st' := set_processed st (processed st + 1) in
  download_item w env total p st
  = ([ProgressUpdated (processed st + 1) total], st', Val tt) /\
  processed st' = processed st + 1 /\
  downloaded st' = downloaded st /\
  download_loop w env total (p :: rest) st
  = (ProgressUpdated (processed st + 1) total
       :: trace_of (download_loop w env total rest st'),
     locals_of (download_loop w env total rest st'),
     result_of (download_loop w env total rest st')).
Proof.
  intros Hp st'.
  assert (Hitem : download_item w env total p st
                  = ([ProgressUpdated (processed st + 1) total], st', Val tt)).
  { unfold download_item, bind, read, write, progress, emit.
    destruct p as [|d]; cbn; [reflexivity|].
    cbn in Hp. destruct (get "file_url" d) as [url|]; cbn; [|reflexivity].
    rewrite Hp. reflexivity. }
  split; [exact Hitem|]. split; [reflexivity|]. split; [reflexivity|].
  cbn [download_loop]. unfold bind at 1. rewrite Hitem.
  destruct (download_loop w env total rest st') as [[t s] r].
  reflexivity.
Qed.

(** C3 at a post whose [file_url] is the empty string, followed by a record
    that is not an object. *)
Lemma C3_unusable_record_witness :
  let p := PostDict [("id", PInt 4); ("file_url", PStr "")] in
  let w := Sample.worker_with Sample.all_exts in
  let env := Sample.net Sample.no_page in
  unusable p = true /\
  download_loop w env 2 [p; NonDict] init
  = ([ProgressUpdated 1 2; ProgressUpdated 2 2],
     set_processed init 2, Val tt).
Proof.
  cbv zeta. split; [reflexivity|].
  rewrite (proj2 (proj2 (proj2
    (C3_unusable_record_counted_not_downloaded
       (Sample.worker_with Sample.all_exts) (Sample.net Sample.no_page) 2
       (PostDict [("id", PInt 4); ("file_url", PStr "")]) [NonDict] init
       eq_refl)))).
  reflexivity.
Defined.

(** Lines 136-138. *)
Lemma download_item_rejected
    (w : worker) (env : world) (total : Z) (d : dict) (url path : string)
    (st : locals) :
  get "file_url" d = Some (PStr url) ->
  truthy (PStr url) = true ->
  urlparse_path env url = inr path ->
  in_exts (target_ext (target_filename (get_or "id" (PStr "") d) path))
    (allowed_exts w) = false ->
  download_item w env total (PostDict d) st
  = ([ProgressUpdated (processed st + 1) total],
     set_processed st (processed st + 1), Val tt).
Proof.
  intros Hurl Ht Hpath Hext.
  unfold_item. rewrite Hurl, Ht. cbn. rewrite Hpath. cbn. rewrite Hext.
  reflexivity.
Qed.

(** C8: a post whose lower-cased extension is not in the allowed set emits
    its progress event and nothing else: no directory is made, no file is
    requested or written, and the counters change as for any skipped item. *)
Theorem C8_rejected_extension_touches_no_directory
    (w : worker) (env : world) (total : Z) (d : dict) (url path : string)
    (st : locals) :
  get "file_url" d = Some (PStr url) ->
  truthy (PStr url) = true ->
  urlparse_path env url = inr path ->
  in_exts (target_ext (target_filename (get_or "id" (PStr "") d) path))
    (allowed_exts w) = false ->
  download_item w env total (PostDict d) st
  = ([ProgressUpdated (processed st + 1) total],
     set_processed st (processed st + 1), Val tt).
Proof.
  intros Hurl Ht Hpath Hext.
  unfold download_item, bind, read, write, progress, emit, parse_path, ret.
  rewrite Hurl, Ht. cbn. rewrite Hpath. cbn. rewrite Hext.
  reflexivity.
Qed.

(** C8 with only [.jpg] allowed and a [.png] post. *)
Lemma C8_rejected_extension_witness :
  download_item (Sample.worker_with [".jpg"]) (Sample.net Sample.no_page) 2
    (Sample.a_post 7 "https://img.example/images/ab/f.PNG") init
  = ([ProgressUpdated 1 2], set_processed init 1, Val tt).
Proof.
  apply (C8_rejected_extension_touches_no_directory
           (Sample.worker_with [".jpg"]) (Sample.net Sample.no_page) 2
           [("id", PInt 7); ("file_url", PStr "https://img.example/images/ab/f.PNG")]
           "https://img.example/images/ab/f.PNG" "/images/ab/f.PNG" init);
    reflexivity.
Defined.

Lemma download_item_counters
    (w : worker) (env : world) (total : Z) (p : post) (st : locals) :
  0 <= downloaded st <= processed st ->
  processed st + 1 <= total ->
  let out := download_item w env total p st in
  Forall (counters_ok total) (trace_of out) /\
  processed (locals_of out) = processed st + 1 /\
  downloaded st <= downloaded (locals_of out) <= downloaded st + 1.
Proof.
  intros Hd Hp. cbv zeta. unfold_item. split_item.
  all: repeat split; cbn; try lia.
  all: repeat constructor; cbn; try lia.
  all: try (eexists _, _; repeat split; try reflexivity; cbn; lia).
Qed.

Lemma download_loop_counters
    (w : worker) (env : world) (total : Z) (l : list post) :
  forall st : locals,
    0 <= downloaded st <= processed st ->
    processed st + Text.len l <= total ->
    let out := download_loop w env total l st in
    Forall (counters_ok total) (trace_of out) /\
    0 <= downloaded (locals_of out) <= processed (locals_of out) /\
    processed (locals_of out) <= total /\
    (result_of out = Val tt ->
     processed (locals_of out) = processed st + Text.len l).
Proof.
  unfold Text.len.
  induction l as [|p r IH]; intros st Hd Hp; cbv zeta.
  - cbn in *. repeat split; try lia. constructor.
  - cbn [download_loop]. unfold bind.
    cbn [List.length] in Hp. rewrite Nat2Z.inj_succ in Hp.
    pose proof (download_item_counters w env total p st Hd ltac:(lia)) as Hi.
    cbv zeta in Hi.
    destruct (download_item w env total p st) as [[t1 st1] r1].
    unfold trace_of, locals_of, result_of in *. cbn [fst snd] in *.
    destruct Hi as (Ht1 & Hp1 & Hd1).
    destruct r1 as [[]| |e|]; cbn [fst snd];
      try (repeat split; try lia; try assumption; discriminate).
    specialize (IH st1 ltac:(lia) ltac:(lia)). cbv zeta in IH.
    destruct (download_loop w env total r st1) as [[t2 st2] r2].
    cbn [fst snd] in *. destruct IH as (Ht2 & Hd2 & Hp2 & Hr2).
    repeat split; try lia.
    + apply Forall_app. now split.
    + intros Hr. rewrite (Hr2 Hr). cbn [List.length].
      rewrite Nat2Z.inj_succ. lia.
Qed.

(** ** The aggregate status and the progress event *)

(** C6, as stated, fails: ten records that are not objects are processed
    with ten progress events and no aggregate status after the tenth; so are
    ten posts whose transfers all fail. *)
Lemma C6_no_aggregate_after_skipped_tenth :
  let w := Sample.worker_with Sample.all_exts in
  let skipped := download_loop w (Sample.net Sample.no_page) 10
                   (repeat NonDict 10) (reset_counters init) in
  let failed := download_loop w (Sample.broken_net Sample.no_page) 10
                  (repeat (Sample.a_post 7 "https://h/a.png") 10)
                  (reset_counters init) in
  (result_of skipped = Val tt /\ processed (locals_of skipped) = 10 /\
   existsb is_aggregate (trace_of skipped) = false) /\
  (result_of failed = Val tt /\ processed (locals_of failed) = 10 /\
   existsb is_aggregate (trace_of failed) = false).
Proof. vm_compute. repeat split; reflexivity. Qed.

(** C6, amended: an item emits the aggregate status exactly when its file
    was saved, the number of processed items is then a multiple of 10 and
    the aggregate template is usable, and the status carries (processed,
    total, downloaded so far); every item the loop gets through, downloaded
    or skipped, ends with the progress event (processed, total). *)
Theorem C6_aggregate_after_saved_tenth
    (w : worker) (env : world) (total : Z) (p : post) (st : locals) :
  let out := download_item w env total p st in
  let n := processed st + 1 in
  (result_of out = Val tt ->
   exists t, trace_of out = t ++ [ProgressUpdated n total]) /\
  (forall args,
      In (StatusChanged processed_downloaded args) (trace_of out) <->
      (exists f, In (Saved f) (trace_of out)) /\ n mod 10 = 0 /\
      usable w processed_downloaded = true /\
      args = [I n; I total; I (downloaded st + 1)]).
Proof.
  cbv zeta. unfold_item. split_item.
  all: split;
    [ intros Hr; try discriminate Hr;
      match goal with
      | |- exists t, ?l = _ => exists (removelast l); reflexivity
      end
    | intros args; cbn [In]; split;
      [ intros H | intros ((f & Hf) & Hm & Hu & Ha) ] ].
  all: repeat match goal with
         | H : _ \/ _ |- _ => destruct H as [H|H]
         | H : False |- _ => destruct H
         | H : (_ =? _) = true |- _ => apply Z.eqb_eq in H
         | H : (_ =? _) = false |- _ => apply Z.eqb_neq in H
         end; try discriminate; try congruence.
  all: try (injection H as <-; repeat split; try assumption; eauto 6).
  all: subst args; auto.
Qed.

(** ** Posts without an identifier *)

(** C10, the synthesized branch: a post without [id] whose URL path has no
    extension gets the file name [.jpg]; [splitext] takes the leading dot as
    part of the name, the extension computed on line 134 is empty, and the
    post is skipped unless the empty extension is allowed. *)
Theorem C10_idless_synthesized_name_is_skipped
    (w : worker) (env : world) (total : Z) (d : dict) (url path : string)
    (st : locals) :
  get "id" d = None ->
  get "file_url" d = Some (PStr url) ->
  truthy (PStr url) = true ->
  urlparse_path env url = inr path ->
  Text.is_empty (Path.basename path)
  || negb (Text.mem Path.dot (Path.basename path)) = true ->
  in_exts "" (allowed_exts w) = false ->
  target_filename (get_or "id" (PStr "") d) path = ".jpg" /\
  target_ext ".jpg" = "" /\
  download_item w env total (PostDict d) st
  = ([ProgressUpdated (processed st + 1) total],
     set_processed st (processed st + 1), Val tt).
Proof.
  intros Hid Hurl Ht Hpath Hsyn Hext.
  assert (Hname : target_filename (get_or "id" (PStr "") d) path = ".jpg").
  { unfold get_or. rewrite Hid.
    apply (proj1 (proj2 (target_filename_spec (PStr "") path))). exact Hsyn. }
  split; [exact Hname|]. split; [reflexivity|].
  apply (download_item_rejected w env total d url path st);
    try assumption.
  rewrite Hname. exact Hext.
Qed.

(** C10 at a post that has only a [file_url], with every extension of the
    main window allowed; the same post with [.jpg] in its URL is stored as
    [_file.jpg]. *)
Lemma C10_idless_synthesized_witness :
  let w := Sample.worker_with Sample.all_exts in
  let env := Sample.net Sample.no_page in
  download_item w env 1
    (PostDict [("file_url", PStr "https://img.example/images/ab/file")]) init
  = ([ProgressUpdated 1 1], set_processed init 1, Val tt) /\
  trace_of (download_item w env 1
    (PostDict [("file_url", PStr "https://img.example/images/ab/file.jpg")]) init)
  = [MakeDirs "downloads/cat/images";
     GetFile "https://img.example/images/ab/file.jpg";
     Saved "downloads/cat/images/_file.jpg"; ProgressUpdated 1 1].
Proof.
  cbv zeta. split; [|reflexivity].
  apply (C10_idless_synthesized_name_is_skipped
           (Sample.worker_with Sample.all_exts) (Sample.net Sample.no_page) 1
           [("file_url", PStr "https://img.example/images/ab/file")]
           "https://img.example/images/ab/file" "/images/ab/file" init);
    reflexivity.
Defined.

(** ** The pagination loop, page by page *)

(** C4, as stated, fails: a 401 response with the body [login_required] is
    reported as an HTTP error, and a 200 response with the unparsable body
    [missing authentication] (lower case) as the generic parse error. *)
Lemma C4_auth_phrase_reported_otherwise :
  let w := Sample.worker_with Sample.all_exts in
  let unauthorized :=
    run w (Sample.net (fun _ => Sample.garbage 401 "login_required")) 5 init in
  let lower_case :=
    run w (Sample.net (fun _ => Sample.garbage 200 "missing authentication")) 5 init in
  (statuses (trace_of unauthorized) = [getting_posts; http_error] /\
   result_of unauthorized = Ret) /\
  (statuses (trace_of lower_case) = [getting_posts; json_error] /\
   result_of lower_case = Ret).
Proof. vm_compute. repeat split; reflexivity. Qed.

(** C4, amended: for a response with status 200 and a non-empty excerpt
    whose body does not parse, if the excerpt contains [Missing
    authentication] as written or [login_required] in any letter case, the
    loop requests this page only and ends: with the authentication-specific
    status and a return when that template is usable, with the template's
    exception otherwise; the generic parse error is not reported. *)
Theorem C4_auth_variant_on_unparsable_200
    (w : worker) (env : world) (st : locals) (r : response) (e : string)
    (fuel : nat) :
  server env (params_of w (pid st)) = Reply r ->
  status_code r = 200 ->
  Text.is_empty (excerpt r) = false ->
  json r = inl e ->
  suggests_auth (excerpt r) = true ->
  fetch_loop w env (Datatypes.S fuel) st
  = if usable w json_error_auth
    then ([Request (params_of w (pid st));
           StatusChanged json_error_auth [S (excerpt r)]], st, Ret)
    else ([Request (params_of w (pid st))], st, Exc (TemplateError json_error_auth)).
Proof.
  intros Hs Hc He Hj Ha. cbn [fetch_loop]. unfold bind at 1.
  unfold_page. rewrite Hs. cbn. rewrite Hc. cbn. rewrite He, Hj, Ha.
  destruct (usable w json_error_auth); reflexivity.
Qed.

(** The amended C4 at a 200 response whose body is [ LOGIN_required ]. *)
Lemma C4_auth_variant_witness :
  let w := Sample.worker_with Sample.all_exts in
  let env := Sample.net (fun _ => Sample.garbage 200 " LOGIN_required ") in
  fetch_loop w env 3 init
  = ([Request (params_of w 0);
      StatusChanged json_error_auth [S "LOGIN_required"]], init, Ret).
Proof.
  cbv zeta.
  apply (C4_auth_variant_on_unparsable_200
           (Sample.worker_with Sample.all_exts)
           (Sample.net (fun _ => Sample.garbage 200 " LOGIN_required "))
           init
           {| status_code := 200; text := " LOGIN_required ";
              json := inl "Expecting value: line 1 column 1 (char 0)" |}
           "Expecting value: line 1 column 1 (char 0)" 2);
    reflexivity.
Defined.

(** Lines 92-101 on a short page: the turn does not go on; when it gets to
    line 100 it has appended the posts and emitted the two events; it makes
    one request. *)
Lemma fetch_page_short
    (w : worker) (env : world) (st : locals) (r : response) (l : list post) :
  server env (params_of w (pid st)) = Reply r ->
  page_posts r = Some l ->
  Text.len l < 1000 ->
  result_of (fetch_page w env st) <> Val true /\
  (forall b, result_of (fetch_page w env st) = Val b ->
     b = false /\
     posts (locals_of (fetch_page w env st)) = posts st ++ l /\
     exists total total_str,
       trace_of (fetch_page w env st)
       = [Request (params_of w (pid st));
          ProgressUpdated (Text.len (posts st ++ l)) total;
          StatusChanged received_posts [I (Text.len (posts st ++ l)); total_str]]) /\
  requests (trace_of (fetch_page w env st)) = 1%nat.
Proof.
  intros Hs Hp Hl.
  apply Z.ltb_lt in Hl. unfold page_posts in Hp.
  unfold_page. rewrite Hs. cbn.
  destruct (json r) as [e|[l0|d|ty]]; try discriminate Hp.
  - injection Hp as ->. split_page.
    all: repeat split; try discriminate; try congruence.
    all: do 2 eexists; reflexivity.
  - cbn. split_page.
    all: repeat split; try discriminate; try congruence.
    all: try discriminate Hp; injection Hp as <-.
    all: do 2 eexists; reflexivity.
Qed.

(** Closes the cases of a page that is let through. *)
Ltac close_accepted :=
  split_page;
  repeat match goal with
    | H : (_ <? _) = false |- _ => apply Z.ltb_ge in H
    end;
  repeat split; try reflexivity; try assumption; try discriminate; try lia;
  try (intros _ Hn; specialize (Hn eq_refl); congruence);
  try (intros; lia).

(** Lines 56-102 on an accepted page: the posts are appended and the total
    is as [page_locals] has it, however the turn ends; with the templates
    of the status usable, a short page gives the request, the progress
    event and the status, and the turn breaks. *)
Lemma fetch_page_accepted
    (w : worker) (env : world) (st : locals) (r : response) (l : list post) :
  server env (params_of w (pid st)) = Reply r ->
  accepted st r = Some l ->
  let out := fetch_page w env st in
  let st' := page_locals st r l in
  posts (locals_of out) = posts st ++ l /\
  has_total (locals_of out) = has_total st' /\
  total_count (locals_of out) = total_count st' /\
  (usable w received_posts = true ->
   (has_total st' = false -> usable w pagination_note = true) ->
   Text.len l < 1000 ->
   out = ([Request (params_of w (pid st));
           ProgressUpdated (Text.len (posts st ++ l))
             (if has_total st' then total_count st' else 0);
           StatusChanged received_posts
             [I (Text.len (posts st ++ l)); total_note st']],
          st', Val false)).
Proof.
  intros Hs Ha. cbv zeta. unfold accepted in Ha.
  unfold page_locals, total_note, total_of.
  unfold_page. rewrite Hs. cbn.
  destruct (status_code r =? 200); cbn in Ha |- *; [|discriminate Ha].
  destruct (Text.is_empty (excerpt r)); cbn in Ha |- *; [discriminate Ha|].
  destruct (json r) as [e|[l0|d|ty]]; try discriminate Ha; cbn.
  - injection Ha as ->. close_accepted.
  - destruct (truthy match success d with Some v => v | None => PBool true end);
      cbn in Ha |- *; [|discriminate Ha].
    destruct (total_count st =? 0) eqn:Hz; cbn in Ha |- *.
    + destruct (attributes d) as [[count|]|]; cbn in Ha |- *; try discriminate Ha.
      all: destruct (post_field d) as [[l1|]|]; cbn in Ha |- *;
        try discriminate Ha; injection Ha as <-.
      all: close_accepted.
    + destruct (post_field d) as [[l1|]|]; cbn in Ha |- *;
        try discriminate Ha; injection Ha as <-.
      all: close_accepted.
Qed.

(** A page that is let through carries the post list
    [page_posts] gives. *)
Lemma accepted_page_posts (st : locals) (r : response) (l : list post) :
  accepted st r = Some l -> page_posts r = Some l.
Proof.
  unfold accepted, page_posts.
  destruct (negb (status_code r =? 200) || Text.is_empty (excerpt r));
    [discriminate|].
  destruct (json r) as [e|[l0|d|ty]]; try discriminate; [trivial|].
  destruct (truthy _ && _); [|discriminate].
  destruct (post_field d) as [[l1|]|]; trivial.
Qed.





(** ** The total count *)

(** C5, as stated, fails.  A keyed first page of three posts without
    [@attributes] reports the total 3, not 0.  After a first page that is a
    bare array of 1000 records, the count of the keyed second page is read;
    and after a keyed first page of 1000 posts whose count is 0, the count
    of the second page is read again. *)
Lemma C5_total_defaulted_or_read_later :
  let w := Sample.worker_with Sample.all_exts in
  let full := repeat NonDict 1000 in
  progresses (trace_of (fetch_loop w
    (Sample.net (fun _ => Sample.page (Sample.bare_keyed [NonDict; NonDict; NonDict])))
    3 init)) = [(3, 3)] /\
  progresses (trace_of (fetch_loop w
    (Sample.net (fun n => if n =? 0 then Sample.page (DList full)
                          else Sample.page (Sample.keyed [NonDict] (Some 1500))))
    3 init)) = [(1000, 0); (1001, 1500)] /\
  progresses (trace_of (fetch_loop w
    (Sample.net (fun n => if n =? 0 then Sample.page (Sample.keyed full (Some 0))
                          else Sample.page (Sample.keyed [NonDict] (Some 1200))))
    3 init)) = [(1000, 0); (1001, 1200)].
Proof. vm_compute. repeat split; reflexivity. Qed.

(** Lines 84-87 and 98 in a turn of the loop: what the progress event is
    given, and when the total changes. *)
Lemma fetch_page_total
    (w : worker) (env : world) (st : locals) :
  let out := fetch_page w env st in
  let st' := locals_of out in
  Forall (reports_total st') (trace_of out) /\
  (total_count st <> 0 ->
   total_count st' = total_count st /\ has_total st' = has_total st) /\
  (forall r l,
      server env (params_of w (pid st)) = Reply r ->
      json r = inr (DList l) ->
      total_count st' = total_count st /\ has_total st' = has_total st) /\
  (forall r d b,
      server env (params_of w (pid st)) = Reply r ->
      json r = inr (DDict d) ->
      total_count st = 0 ->
      result_of out = Val b ->
      has_total st' = true /\ total_count st' = total_of d).
Proof.
  cbv zeta. unfold total_of. unfold_page.
  destruct (server env (params_of w (pid st))) as [r|e] eqn:Hs; cbn.
  2:{ repeat split; try discriminate. repeat constructor. }
  split_page.
  all: repeat match goal with
         | H : (_ =? _) = true |- _ => apply Z.eqb_eq in H
         | H : (_ =? _) = false |- _ => apply Z.eqb_neq in H
         end.
  all: split;
    [ repeat constructor; cbn;
      repeat match goal with H : has_total _ = _ |- _ => rewrite H end;
      reflexivity | ].
  all: split; [intros Hnz; try (now split); try congruence|].
  all: split; [intros r' l' Hr' Hj'; injection Hr' as <-; try (now split); try congruence|].
  all: intros r' d' b' Hr' Hj' Hz Hb; injection Hr' as <-; try discriminate;
       try congruence.
  all: match goal with
       | H : json _ = inr (DDict ?x) |- _ =>
           first [ constr_eq x d'; fail 1
                 | assert (d' = x) by congruence; subst d' ]
       end.
  all: repeat match goal with H : _ = _ |- _ => rewrite H end; cbn; auto.
Qed.

Lemma c_int_small (n : Z) : - 2 ^ 31 <= n < 2 ^ 31 -> c_int n = n.
Proof.
  unfold c_int. change (2 ^ 31) with 2147483648.
  change (2 ^ 32) with 4294967296. intros H.
  rewrite Z.mod_small by lia. lia.
Qed.

(** A known total of 2^32 reaches the slot as 0, the value that stands for
    a total that is not known. *)
Example known_total_received_as_zero :
  let w := Sample.worker_with Sample.all_exts in
  let out :=
    fetch_page w
      (Sample.net (fun _ => Sample.page (Sample.keyed [NonDict] (Some 4294967296))))
      init in
  has_total (locals_of out) = true /\
  List.map received (trace_of out) = [None; Some (1, 0); None].
Proof. vm_compute. split; reflexivity. Qed.

(** C5, amended: a turn of the loop reads the total from a keyed response
    whenever the stored total is 0 and the response is accepted, taking the
    count attribute when there is one and the number of posts of that page
    otherwise, and from then on the total counts as known, however the
    turn ends after that; a bare array never changes it, nor does any page
    once the stored total is not 0; every progress event of the fetch
    phase is emitted with the stored total when it counts as known and with
    0 otherwise, and the slot of the window receives that number as a C
    [int]: 0 whenever the total is not known, the stored total itself when
    it is known and fits in 32 bits, and the stored total modulo 2^32 when
    it is known and fits in 64 bits. *)
Theorem C5_total_read_while_zero
    (w : worker) (env : world) (st : locals) :
  let out := fetch_page w env st in
  let st' := locals_of out in
  Forall (reports_total st') (trace_of out) /\
  (forall ev c t,
      In ev (trace_of out) ->
      received ev = Some (c, t) ->
      (has_total st' = false -> t = 0) /\
      (has_total st' = true ->
       - 2 ^ 31 <= total_count st' < 2 ^ 31 ->
       t = total_count st') /\
      (has_total st' = true ->
       - 2 ^ 63 <= total_count st' < 2 ^ 63 ->
       t = c_int (total_count st'))) /\
  (total_count st <> 0 ->
   total_count st' = total_count st /\ has_total st' = has_total st) /\
  (forall r l,
      server env (params_of w (pid st)) = Reply r ->
      json r = inr (DList l) ->
      total_count st' = total_count st /\ has_total st' = has_total st) /\
  (forall r d b,
      server env (params_of w (pid st)) = Reply r ->
      json r = inr (DDict d) ->
      total_count st = 0 ->
      result_of out = Val b ->
      has_total st' = true /\ total_count st' = total_of d) /\
  (forall r d l,
      server env (params_of w (pid st)) = Reply r ->
      json r = inr (DDict d) ->
      accepted st r = Some l ->
      total_count st = 0 ->
      has_total st' = true /\ total_count st' = total_of d /\
      posts st' = posts st ++ l).
Proof.
  cbv zeta.
  destruct (fetch_page_total w env st) as (Hrep & Hnz & Hlist & Hval).
  split; [exact Hrep|]. split; [|split; [exact Hnz|]; split; [exact Hlist|];
                                 split; [exact Hval|]].
  - intros ev c t Hin Hrec.
    rewrite Forall_forall in Hrep. specialize (Hrep ev Hin).
    destruct ev; try discriminate Hrec.
    cbn [reports_total received] in Hrep, Hrec.
    destruct Hrep as [_ Ht]. injection Hrec as _ <-.
    subst total. split; [|split].
    + intros ->. reflexivity.
    + intros -> Hrange. now apply c_int_small.
    + intros -> _. reflexivity.
  - intros r d l Hs Hj Ha Hz.
    pose proof (fetch_page_accepted w env st r l Hs Ha) as H.
    cbv zeta in H. destruct H as (Hp & Hh & Ht & _).
    split; [rewrite Hh|split; [rewrite Ht|exact Hp]].
    all: unfold page_locals; rewrite Hj.
    all: apply Z.eqb_eq in Hz; rewrite Hz; reflexivity.
Qed.

(** The amended C5 on a keyed first page with a count of 5000, for a
    worker whose translation lacks the received-posts template: the turn
    ends with the exception of the template, after the total has been
    read. *)
Lemma C5_total_read_witness :
  let w := Sample.worker_lacking (key_eqb received_posts) in
  let d := {| success := None; message := None;
              post_field := Some (Items [NonDict; NonDict]);
              attributes := Some (AttrDict (Some 5000)) |} in
  let out := fetch_page w (Sample.net (fun _ => Sample.page (DDict d))) init in
  result_of out = Exc (TemplateError received_posts) /\
  has_total (locals_of out) = true /\
  total_count (locals_of out) = 5000 /\
  posts (locals_of out) = [NonDict; NonDict].
Proof.
  cbv zeta. split; [reflexivity|].
  exact (proj2 (proj2 (proj2 (proj2 (proj2
           (C5_total_read_while_zero
              (Sample.worker_lacking (key_eqb received_posts))
              (Sample.net (fun _ =>
                 Sample.page
                   (DDict {| success := None; message := None;
                             post_field := Some (Items [NonDict; NonDict]);
                             attributes := Some (AttrDict (Some 5000)) |})))
              init)))))
           {| status_code := 200; text := "{...}";
              json := inr (DDict {| success := None; message := None;
                                    post_field := Some (Items [NonDict; NonDict]);
                                    attributes := Some (AttrDict (Some 5000)) |}) |}
           {| success := None; message := None;
              post_field := Some (Items [NonDict; NonDict]);
              attributes := Some (AttrDict (Some 5000)) |}
           [NonDict; NonDict] eq_refl eq_refl eq_refl eq_refl).
Defined.

(** ** How [run] ends *)

Lemma ends_with_app (P : key -> bool) (t1 t2 : list event) :
  ends_with P t2 -> ends_with P (t1 ++ t2).
Proof.
  intros (t0 & k & args & -> & HP).
  exists (t1 ++ t0), k, args. now rewrite app_assoc.
Qed.

Lemma ends_with_weaken (P Q : key -> bool) (t : list event) :
  (forall k, P k = true -> Q k = true) -> ends_with P t -> ends_with Q t.
Proof.
  intros HPQ (t0 & k & args & -> & HP). exists t0, k, args. auto.
Qed.

(** A turn of the pagination loop that executes [return] has just emitted
    the status of a fetch failure; it never reaches the loop bound. *)
Lemma fetch_page_ret (w : worker) (env : world) (st : locals) :
  let out := fetch_page w env st in
  (result_of out = Ret -> ends_with fetch_failure (trace_of out)) /\
  result_of out <> Fuel.
Proof.
  cbv zeta. unfold_page.
  destruct (server env (params_of w (pid st))) as [r|e]; cbn.
  2:{ split; discriminate. }
  split_page.
  all: split; [intros Hr; try discriminate Hr|discriminate].
  all: eexists [_], _, _; split; [reflexivity|reflexivity].
Qed.

Lemma fetch_loop_ret (w : worker) (env : world) (fuel : nat) :
  forall st,
    result_of (fetch_loop w env fuel st) = Ret ->
    ends_with fetch_failure (trace_of (fetch_loop w env fuel st)).
Proof.
  induction fuel as [|fuel IH]; intros st; [discriminate|].
  cbn [fetch_loop]. unfold bind at 1 2.
  pose proof (fetch_page_ret w env st) as [Hret _].
  destruct (fetch_page w env st) as [[t st'] [b| |e|]];
    unfold trace_of, result_of in *; cbn [fst snd] in *;
    try discriminate; [|intros _; now apply Hret].
  destruct b.
  - specialize (IH st').
    destruct (fetch_loop w env fuel st') as [[t2 st2] r2]. cbn [fst snd] in *.
    intros Hr. apply ends_with_app. now apply IH.
  - discriminate.
Qed.

(** An item neither executes [return] nor involves the loop bound. *)
Lemma download_item_falls_or_raises
    (w : worker) (env : world) (total : Z) (p : post) (st : locals) :
  result_of (download_item w env total p st) <> Ret /\
  result_of (download_item w env total p st) <> Fuel.
Proof.
  unfold_item. split_item. all: split; discriminate.
Qed.

Lemma download_loop_falls_or_raises
    (w : worker) (env : world) (total : Z) (l : list post) :
  forall st,
    result_of (download_loop w env total l st) <> Ret /\
    result_of (download_loop w env total l st) <> Fuel.
Proof.
  induction l as [|p r IH]; intros st; [split; discriminate|].
  cbn [download_loop]. unfold bind.
  pose proof (download_item_falls_or_raises w env total p st) as [H1 H2].
  destruct (download_item w env total p st) as [[t st'] [[]| |e|]];
    unfold result_of in *; cbn [fst snd] in *;
    try (split; discriminate); try (now contradiction H1);
    try (now contradiction H2).
  specialize (IH st').
  destruct (download_loop w env total r st') as [[t2 st2] r2].
  exact IH.
Qed.

(** The statuses on which the body of [run] ends without an exception:
    [return] after a fetch failure or an empty batch, or the final report;
    and the body reaches the bound only inside the pagination loop. *)
Lemma run_body_ends (w : worker) (env : world) (fuel : nat) (st : locals) :
  let body := run_body w env fuel st in
  (result_of body = Ret ->
   ends_with (fun k => fetch_failure k || key_eqb k no_posts) (trace_of body)) /\
  (result_of body = Val tt ->
   ends_with (fun k => key_eqb k finished) (trace_of body)) /\
  (result_of body = Fuel ->
   result_of (fetch_loop w env fuel init) = Fuel).
Proof.
  cbv zeta.
  remember (run_body w env fuel st) as body eqn:Hb.
  unfold run_body, bind, write, read, emit_status, emit, raise,
    early_return, ret in Hb.
  cbv beta in Hb.
  pose proof (fetch_loop_ret w env fuel init) as Hret.
  destruct (usable w getting_posts).
  2:{ subst body. cbn. repeat split; discriminate. }
  destruct (fetch_loop w env fuel init) as [[t1 st1] r1].
  unfold trace_of, result_of in *. cbn [fst snd] in *.
  destruct r1 as [[]| |e1|]; cbv beta iota in Hb.
  2,3,4: subst body; cbn [fst snd]; repeat split; try discriminate;
    try reflexivity.
  2:{ intros _. apply (ends_with_app _ [StatusChanged getting_posts []]).
      apply (ends_with_weaken fetch_failure); [|now apply Hret].
      intros k ->. reflexivity. }
  destruct (Text.len (posts st1) =? 0).
  { destruct (usable w no_posts); subst body; cbn [fst snd];
      repeat split; try discriminate.
    intros _. exists (StatusChanged getting_posts [] :: t1), no_posts, [].
    split; [cbn; now rewrite ?app_nil_r|reflexivity]. }
  destruct (usable w starting_download); cbv beta iota in Hb.
  2:{ subst body. cbn [fst snd]. repeat split; discriminate. }
  pose proof (download_loop_falls_or_raises w env
                (Text.len (posts st1)) (posts st1) st1) as [Hnr Hnf].
  destruct (download_loop w env (Text.len (posts st1)) (posts st1) st1)
    as [[t2 st2] r2].
  unfold result_of in *. cbn [fst snd] in *.
  destruct r2 as [[]| |e2|]; cbv beta iota in Hb;
    try (now contradiction Hnr); try (now contradiction Hnf).
  2:{ subst body. cbn [fst snd]. repeat split; discriminate. }
  destruct (usable w finished); subst body; cbn [fst snd];
    repeat split; try discriminate.
  intros _.
  eexists (StatusChanged getting_posts []
             :: t1 ++ StatusChanged starting_download [] :: t2), finished, _.
  split; [|reflexivity].
  cbn. rewrite <- !app_assoc. reflexivity.
Qed.

(** A turn that goes on to the next page has added one to [pid]. *)
Lemma fetch_page_next (w : worker) (env : world) (st : locals) :
  result_of (fetch_page w env st) = Val true ->
  pid (locals_of (fetch_page w env st)) = pid st + 1.
Proof.
  unfold_page.
  destruct (server env (params_of w (pid st))) as [r|e]; cbn;
    [|discriminate].
  split_page. all: intros Hr; try discriminate Hr; reflexivity.
Qed.

(** The pagination loop ends within the bound when one of the pages it can
    reach carries fewer than 1000 posts. *)
Lemma fetch_loop_ends (w : worker) (env : world) :
  forall (fuel : nat) (st : locals) (k : nat) (r : response) (l : list post),
    (k < fuel)%nat ->
    server env (params_of w (pid st + Z.of_nat k)) = Reply r ->
    page_posts r = Some l ->
    Text.len l < 1000 ->
    result_of (fetch_loop w env fuel st) <> Fuel.
Proof.
  induction fuel as [|fuel IH]; intros st k r l Hk Hs Hp Hl; [lia|].
  cbn [fetch_loop]. unfold bind.
  pose proof (fetch_page_ret w env st) as [_ Hnf].
  pose proof (fetch_page_next w env st) as Hnext.
  destruct (fetch_page w env st) as [[t st'] [b| |e|]] eqn:Hpage;
    unfold result_of, locals_of in *; cbn [fst snd] in *;
    try discriminate; [|now contradiction Hnf].
  destruct b; [|discriminate].
  destruct k as [|k].
  - exfalso. rewrite Z.add_0_r in Hs.
    destruct (fetch_page_short w env st r l Hs Hp Hl) as (Hne & _).
    apply Hne. rewrite Hpage. reflexivity.
  - specialize (IH st' k r l ltac:(lia)).
    rewrite (Hnext eq_refl) in IH.
    replace (pid st + 1 + Z.of_nat k) with (pid st + Z.of_nat (Datatypes.S k))
      in IH by lia.
    specialize (IH Hs Hp Hl).
    destruct (fetch_loop w env fuel st') as [[t2 st2] r2]. exact IH.
Qed.

(** C2, as stated, fails: with a translation table that lacks the
    [unexpected_error] message and a search request that fails in
    transport, the exception raised by the handler on line 169 leaves
    [run]. *)
Lemma C2_handler_template_missing_raises :
  let w := Sample.worker_lacking (fun k => key_eqb k unexpected_error) in
  run w (Sample.net Sample.no_page) 5 init
  = ([StatusChanged getting_posts []; Request (params_of w 0)], init,
     Exc (TemplateError unexpected_error)).
Proof. vm_compute. reflexivity. Qed.

(** C2, amended: when the translator's [unexpected_error] template is
    usable, [run] never raises.  An exception raised anywhere in its body is
    caught and reported by exactly one more event, the generic failure
    status, after which [run] returns; otherwise [run] is its body, which
    returns early only right after the status of a fetch failure or of an
    empty batch, ends normally right after the final report, and can go on
    for ever only inside the pagination loop. *)
Theorem C2_run_never_raises
    (w : worker) (env : world) (fuel : nat) (st : locals) :
  usable w unexpected_error = true ->
  let body := run_body w env fuel st in
  let out := run w env fuel st in
  (forall e, result_of out <> Exc e) /\
  (forall e, result_of body = Exc e ->
     trace_of out = trace_of body ++ [StatusChanged unexpected_error [E e]] /\
     result_of out = Val tt) /\
  ((forall e, result_of body <> Exc e) -> out = body) /\
  (result_of out = Ret ->
   ends_with (fun k => fetch_failure k || key_eqb k no_posts) (trace_of out)) /\
  (result_of out = Val tt ->
   ends_with (fun k => key_eqb k finished || key_eqb k unexpected_error)
     (trace_of out)) /\
  (result_of out = Fuel -> result_of (fetch_loop w env fuel init) = Fuel).
Proof.
  intros Hu. cbv zeta.
  pose proof (run_body_ends w env fuel st) as (Hret & Hval & Hfuel).
  cbv zeta in Hret, Hval, Hfuel.
  unfold run, try_catch, emit_status. rewrite Hu. unfold emit.
  destruct (run_body w env fuel st) as [[t st'] [[]| |e|]];
    unfold trace_of, result_of in *; cbn [fst snd] in *.
  - repeat split; try discriminate; try (intros; exact Hfuel).
    intros _. apply (ends_with_weaken (fun k => key_eqb k finished));
      [intros k ->; reflexivity|now apply Hval].
  - repeat split; try discriminate. exact Hret.
  - repeat split; try discriminate.
    + congruence.
    + intros Hne. now contradiction (Hne e).
    + intros _. exists t, unexpected_error, [E e]. now split.
  - repeat split; try discriminate. exact Hfuel.
Qed.

(** The amended C2 on a complete translation table, with the search request
    failing in transport. *)
Lemma C2_run_never_raises_witness :
  let w := Sample.worker_with Sample.all_exts in
  usable w unexpected_error = true /\
  trace_of (run w (Sample.net Sample.no_page) 5 init)
  = [StatusChanged getting_posts []; Request (params_of w 0);
     StatusChanged unexpected_error [E (RequestError "down")]] /\
  result_of (run w (Sample.net Sample.no_page) 5 init) = Val tt.
Proof.
  cbv zeta. split; [reflexivity|].
  apply (proj1 (proj2
    (C2_run_never_raises (Sample.worker_with Sample.all_exts)
       (Sample.net Sample.no_page) 5 init eq_refl))
    (RequestError "down")).
  reflexivity.
Defined.

(** ** The final report *)

(** The pagination loop leaves the two counters alone. *)
Lemma fetch_page_keeps_counters (w : worker) (env : world) (st : locals) :
  processed (locals_of (fetch_page w env st)) = processed st /\
  downloaded (locals_of (fetch_page w env st)) = downloaded st.
Proof.
  unfold_page.
  destruct (server env (params_of w (pid st))) as [r|e]; cbn;
    [|split; reflexivity].
  split_page. all: split; reflexivity.
Qed.

Lemma fetch_loop_keeps_counters (w : worker) (env : world) (fuel : nat) :
  forall st,
    processed (locals_of (fetch_loop w env fuel st)) = processed st /\
    downloaded (locals_of (fetch_loop w env fuel st)) = downloaded st.
Proof.
  induction fuel as [|fuel IH]; intros st; [split; reflexivity|].
  cbn [fetch_loop]. unfold bind.
  pose proof (fetch_page_keeps_counters w env st) as Hpage.
  destruct (fetch_page w env st) as [[t st'] [b| |e|]];
    unfold locals_of in *; cbn [fst snd] in *; try exact Hpage.
  destruct b; [|exact Hpage].
  specialize (IH st').
  destruct (fetch_loop w env fuel st') as [[t2 st2] r2]. cbn [fst snd] in *.
  destruct Hpage as [<- <-]. exact IH.
Qed.

(** When the body of [run] ends normally, its last event is the final
    report, with processed = total, 0 <= downloaded <= total and
    skipped = total - downloaded. *)
Lemma run_body_report (w : worker) (env : world) (fuel : nat) (st : locals) :
  result_of (run_body w env fuel st) = Val tt ->
  exists t total d,
    trace_of (run_body w env fuel st)
    = t ++ [StatusChanged finished
              [I total; I total; I d; I (total - d); S (download_dir w)]] /\
    0 <= d <= total /\ 0 <= total - d.
Proof.
  remember (run_body w env fuel st) as body eqn:Hb.
  unfold run_body, bind, write, read, emit_status, emit, raise,
    early_return, ret in Hb.
  cbv beta in Hb.
  pose proof (fetch_loop_keeps_counters w env fuel init) as [Hp0 Hd0].
  destruct (usable w getting_posts); [|subst body; discriminate].
  destruct (fetch_loop w env fuel init) as [[t1 st1] r1].
  unfold trace_of, locals_of, result_of in *. cbn [fst snd] in *.
  destruct r1 as [[]| |e1|]; cbv beta iota in Hb;
    try (subst body; discriminate).
  destruct (Text.len (posts st1) =? 0);
    [destruct (usable w no_posts); subst body; discriminate|].
  destruct (usable w starting_download); cbv beta iota in Hb;
    [|subst body; discriminate].
  pose proof (download_loop_counters w env (Text.len (posts st1))
                (posts st1) st1) as Hloop.
  rewrite Hp0, Hd0 in Hloop. cbn [init processed downloaded] in Hloop.
  specialize (Hloop ltac:(lia) ltac:(lia)). cbv zeta in Hloop.
  destruct (download_loop w env (Text.len (posts st1)) (posts st1) st1)
    as [[t2 st2] r2].
  unfold trace_of, locals_of, result_of in *. cbn [fst snd] in *.
  destruct Hloop as (_ & Hd & Hp & Hr).
  destruct r2 as [[]| |e2|]; cbv beta iota in Hb;
    try (subst body; discriminate).
  destruct (usable w finished); subst body; cbn [fst snd];
    [|discriminate].
  intros _. rewrite (Hr eq_refl) in *.
  exists (StatusChanged getting_posts []
            :: t1 ++ StatusChanged starting_download [] :: t2),
    (Text.len (posts st1)), (downloaded st2).
  split; [|lia].
  cbn. rewrite <- !app_assoc. reflexivity.
Qed.

(** C9: while the loop works through any initial part [done] of the batch
    [done ++ rest], every progress event and every aggregate status reports
    counters with 0 <= downloaded <= processed <= total_posts, the counters
    themselves satisfy this after each item, [processed] is the number of
    items gone through, and when the whole batch is through, [processed]
    equals [total_posts] and [total_posts - downloaded], the reported
    number of skipped items, is not negative; the final report of a run
    that ends normally carries these numbers. *)
Theorem C9_counters_invariant
    (w : worker) (env : world) (done rest : list post) (st : locals) :
  let total_posts := Text.len (done ++ rest) in
  let out := download_loop w env total_posts done (reset_counters st) in
  Forall (counters_ok total_posts) (trace_of out) /\
  0 <= downloaded (locals_of out) <= processed (locals_of out) /\
  processed (locals_of out) <= total_posts /\
  (result_of out = Val tt ->
   processed (locals_of out) = Text.len done /\
   (rest = [] ->
    processed (locals_of out) = total_posts /\
    0 <= total_posts - downloaded (locals_of out))) /\
  (forall fuel : nat,
      result_of (run_body w env fuel st) = Val tt ->
      exists t total d,
        trace_of (run_body w env fuel st)
        = t ++ [StatusChanged finished
                  [I total; I total; I d; I (total - d); S (download_dir w)]] /\
        0 <= d <= total /\ 0 <= total - d).
Proof.
  cbv zeta.
  assert (Hlen : Text.len (done ++ rest) = Text.len done + Text.len rest).
  { unfold Text.len. rewrite length_app. lia. }
  assert (Hrest : 0 <= Text.len rest) by (unfold Text.len; lia).
  pose proof (download_loop_counters w env (Text.len (done ++ rest)) done
                (reset_counters st)) as H.
  cbn [reset_counters set_processed set_downloaded downloaded processed] in H.
  specialize (H ltac:(lia) ltac:(lia)). cbv zeta in H.
  destruct H as (Ht & Hd & Hp & Hr).
  split; [exact Ht|]. split; [exact Hd|]. split; [exact Hp|]. split.
  - intros Hv. rewrite (Hr Hv). split; [lia|].
    intros ->. rewrite app_nil_r in *. lia.
  - intros fuel. apply run_body_report.
Qed.

(** C9 on a batch of three: a downloadable post, a record that is not an
    object, a post with a rejected extension. *)
Lemma C9_counters_witness :
  let batch := [Sample.a_post 7 "https://img.example/images/ab/f.PNG";
                NonDict; Sample.a_post 10 "https://h/a.txt"] in
  let out := download_loop (Sample.worker_with Sample.all_exts)
               (Sample.net Sample.no_page) 3 batch (reset_counters init) in
  result_of out = Val tt /\ processed (locals_of out) = 3 /\
  downloaded (locals_of out) = 1 /\ 0 <= 3 - downloaded (locals_of out).
Proof.
  cbv zeta.
  pose proof (C9_counters_invariant (Sample.worker_with Sample.all_exts)
                (Sample.net Sample.no_page)
                [Sample.a_post 7 "https://img.example/images/ab/f.PNG";
                 NonDict; Sample.a_post 10 "https://h/a.txt"] [] init) as H.
  cbv zeta in H. destruct H as (_ & _ & _ & H & _).
  split; [reflexivity|].
  destruct (H eq_refl) as (_ & H'). destruct (H' eq_refl) as (Hp & Hs).
  split; [exact Hp|]. split; [reflexivity|exact Hs].
Defined.


(** * Further properties of [Worker.run] *)

(** ** The batch and the pages *)

Lemma fetch_page_appends (w : worker) (env : world) (st : locals) :
  exists l, posts (locals_of (fetch_page w env st)) = posts st ++ l.
Proof.
  unfold_page.
  destruct (server env (params_of w (pid st))) as [r|e]; cbn;
    [|exists []; now rewrite app_nil_r].
  split_page.
  all: try (exists []; now rewrite app_nil_r).
  all: eexists; reflexivity.
Qed.

(** X1: the batch only grows at its end.  Whatever the pages hold and
    however the pagination loop ends, the posts collected before it are an
    initial part, in the same order, of the posts after it. *)
Theorem X1_batch_append_only
    (w : worker) (env : world) (fuel : nat) (st : locals) :
  exists l, posts (locals_of (fetch_loop w env fuel st)) = posts st ++ l.
Proof.
  revert st. induction fuel as [|fuel IH]; intros st.
  - exists []. cbn. now rewrite app_nil_r.
  - cbn [fetch_loop]. unfold bind.
    destruct (fetch_page_appends w env st) as [l1 Hl1].
    destruct (fetch_page w env st) as [[t st'] [b| |e|]];
      unfold locals_of in *; cbn [fst snd] in *;
      try (now exists l1).
    destruct b; [|now exists l1].
    destruct (IH st') as [l2 Hl2].
    destruct (fetch_loop w env fuel st') as [[t2 st2] r2].
    cbn [fst snd] in *. exists (l1 ++ l2).
    rewrite Hl2, Hl1. now rewrite app_assoc.
Qed.

Lemma request_params_app (t1 t2 : list event) :
  request_params (t1 ++ t2) = request_params t1 ++ request_params t2.
Proof. unfold request_params. apply flat_map_app. Qed.

Lemma fetch_page_one_request (w : worker) (env : world) (st : locals) :
  request_params (trace_of (fetch_page w env st)) = [params_of w (pid st)].
Proof.
  unfold_page.
  destruct (server env (params_of w (pid st))) as [r|e]; cbn;
    [|reflexivity].
  split_page. all: reflexivity.
Qed.

(** X2: the loop asks for consecutive pages.  The search requests it makes
    are, in order, those for the pages pid, pid + 1, ..., pid + n - 1 for
    some n within the bound: no page is skipped and none is asked twice. *)
Theorem X2_pages_requested_in_order
    (w : worker) (env : world) (fuel : nat) (st : locals) :
  exists n : nat,
    (n <= fuel)%nat /\
    request_params (trace_of (fetch_loop w env fuel st))
    = List.map (fun i => params_of w (pid st + Z.of_nat i)) (seq 0 n).
Proof.
  revert st. induction fuel as [|fuel IH]; intros st.
  - exists 0%nat. split; [lia|reflexivity].
  - cbn [fetch_loop]. unfold bind.
    pose proof (fetch_page_one_request w env st) as Hone.
    pose proof (fetch_page_next w env st) as Hnext.
    assert (Hlast : [params_of w (pid st)]
                    = List.map (fun i => params_of w (pid st + Z.of_nat i)) (seq 0 1)).
    { cbn. now rewrite Z.add_0_r. }
    destruct (fetch_page w env st) as [[t st'] [b| |e|]];
      unfold trace_of, locals_of, result_of in *; cbn [fst snd] in *;
      try (exists 1%nat; split; [lia|rewrite Hone; exact Hlast]).
    destruct b.
    + destruct (IH st') as (n & Hn & Hreq).
      destruct (fetch_loop w env fuel st') as [[t2 st2] r2].
      cbn [fst snd] in *. exists (Datatypes.S n). split; [lia|].
      rewrite request_params_app, Hone, Hreq, (Hnext eq_refl).
      cbn [seq List.map]. rewrite Z.add_0_r. cbn [app]. f_equal.
      rewrite <- seq_shift, map_map.
      apply map_ext. intros i. f_equal. lia.
    + exists 1%nat. split; [lia|].
      unfold ret. cbn [fst snd]. rewrite app_nil_r, Hone. exact Hlast.
Qed.

(** ** What each phase leaves alone *)

Lemma fetch_page_no_download_effect (w : worker) (env : world) (st : locals) :
  existsb is_download_effect (trace_of (fetch_page w env st)) = false.
Proof.
  unfold_page.
  destruct (server env (params_of w (pid st))) as [r|e]; cbn;
    [|reflexivity].
  split_page. all: reflexivity.
Qed.

Lemma fetch_loop_no_download_effect (w : worker) (env : world) (fuel : nat) :
  forall st,
    existsb is_download_effect (trace_of (fetch_loop w env fuel st)) = false.
Proof.
  induction fuel as [|fuel IH]; intros st; [reflexivity|].
  cbn [fetch_loop]. unfold bind.
  pose proof (fetch_page_no_download_effect w env st) as Hpage.
  destruct (fetch_page w env st) as [[t st'] [b| |e|]];
    unfold trace_of in *; cbn [fst snd] in *; try exact Hpage.
  destruct b.
  - specialize (IH st').
    destruct (fetch_loop w env fuel st') as [[t2 st2] r2]. cbn [fst snd] in *.
    rewrite existsb_app, Hpage, IH. reflexivity.
  - unfold ret. cbn [fst snd]. now rewrite app_nil_r.
Qed.

Lemma download_item_no_request
    (w : worker) (env : world) (total : Z) (p : post) (st : locals) :
  request_params (trace_of (download_item w env total p st)) = [] /\
  posts (locals_of (download_item w env total p st)) = posts st.
Proof.
  unfold_item. split_item. all: split; reflexivity.
Qed.

Lemma download_loop_no_request
    (w : worker) (env : world) (total : Z) (l : list post) :
  forall st,
    request_params (trace_of (download_loop w env total l st)) = [] /\
    posts (locals_of (download_loop w env total l st)) = posts st.
Proof.
  induction l as [|p r IH]; intros st; [split; reflexivity|].
  cbn [download_loop]. unfold bind.
  pose proof (download_item_no_request w env total p st) as [Hreq Hposts].
  destruct (download_item w env total p st) as [[t st'] [[]| |e|]];
    unfold trace_of, locals_of in *; cbn [fst snd] in *;
    try (split; assumption).
  destruct (IH st') as [Hreq2 Hposts2].
  destruct (download_loop w env total r st') as [[t2 st2] r2].
  cbn [fst snd] in *. split.
  - rewrite request_params_app, Hreq, Hreq2. reflexivity.
  - congruence.
Qed.

(** X3: the two phases keep apart.  The pagination loop makes no directory
    and requests or writes no file; the download loop sends no search
    request and leaves the batch as the pagination loop built it. *)
Theorem X3_phases_keep_apart
    (w : worker) (env : world) (fuel : nat) (total : Z) (l : list post)
    (st : locals) :
  existsb is_download_effect (trace_of (fetch_loop w env fuel st)) = false /\
  request_params (trace_of (download_loop w env total l st)) = [] /\
  posts (locals_of (download_loop w env total l st)) = posts st.
Proof.
  split; [apply fetch_loop_no_download_effect|].
  apply download_loop_no_request.
Qed.

(** ** Failed pages *)

(** X4: a page that ends the run early contributes nothing.  When a turn of
    the pagination loop executes [return], the local variables, the batch
    among them, are what they were before the turn, and the turn has done
    exactly two things: the request for its page and one status event with
    the message of a fetch failure. *)
Theorem X4_failed_page_keeps_locals
    (w : worker) (env : world) (st : locals) :
  result_of (fetch_page w env st) = Ret ->
  locals_of (fetch_page w env st) = st /\
  exists k args,
    fetch_failure k = true /\
    trace_of (fetch_page w env st)
    = [Request (params_of w (pid st)); StatusChanged k args].
Proof.
  unfold_page.
  destruct (server env (params_of w (pid st))) as [r|e]; cbn;
    [|discriminate].
  split_page.
  all: intros Hr; try discriminate Hr.
  all: split; [reflexivity|].
  all: eexists _, _; split; [|reflexivity]; reflexivity.
Qed.

(** X4 on a response with status 503. *)
Lemma X4_failed_page_witness :
  let w := Sample.worker_with Sample.all_exts in
  let env := Sample.net (fun _ => Sample.garbage 503 "Service Unavailable") in
  locals_of (fetch_page w env init) = init.
Proof.
  cbv zeta.
  apply (X4_failed_page_keeps_locals (Sample.worker_with Sample.all_exts)
           (Sample.net (fun _ => Sample.garbage 503 "Service Unavailable"))
           init).
  reflexivity.
Defined.

(** X5: the status code and the empty body come before the parse.  A
    response whose status is not 200 is reported as an HTTP error with its
    status code and excerpt, and a 200 response whose stripped body is empty
    as an empty response, whatever [response.json()] would give; in both
    cases the loop ends with [return] after this one request, when the
    template is usable. *)
Theorem X5_status_and_empty_body_first
    (w : worker) (env : world) (st : locals) (r : response) (fuel : nat) :
  server env (params_of w (pid st)) = Reply r ->
  (status_code r <> 200 ->
   usable w http_error = true ->
   fetch_loop w env (Datatypes.S fuel) st
   = ([Request (params_of w (pid st));
       StatusChanged http_error [I (status_code r); S (excerpt r)]],
      st, Ret)) /\
  (status_code r = 200 ->
   Text.is_empty (excerpt r) = true ->
   usable w empty_response = true ->
   fetch_loop w env (Datatypes.S fuel) st
   = ([Request (params_of w (pid st));
       StatusChanged empty_response [I (status_code r)]],
      st, Ret)).
Proof.
  intros Hs. split.
  - intros Hc Hu. apply Z.eqb_neq in Hc.
    cbn [fetch_loop]. unfold bind at 1. unfold_page.
    rewrite Hs. cbn. rewrite Hc. cbn. rewrite Hu. reflexivity.
  - intros Hc He Hu.
    cbn [fetch_loop]. unfold bind at 1. unfold_page.
    rewrite Hs. cbn. rewrite Hc. cbn. rewrite He, Hu. reflexivity.
Qed.

(** X5 on a 500 response that carries a well-formed page, and on a 200
    response of blanks. *)
Lemma X5_status_and_empty_body_witness :
  let w := Sample.worker_with Sample.all_exts in
  let broken := {| status_code := 500; text := "[]"; json := inr (DList [NonDict]) |} in
  let blank := {| status_code := 200; text := "   "; json := inr (DList [NonDict]) |} in
  statuses (trace_of (fetch_loop w (Sample.net (fun _ => Reply broken)) 4 init))
  = [http_error] /\
  statuses (trace_of (fetch_loop w (Sample.net (fun _ => Reply blank)) 4 init))
  = [empty_response].
Proof.
  cbv zeta. split.
  - rewrite (proj1 (X5_status_and_empty_body_first
      (Sample.worker_with Sample.all_exts)
      (Sample.net (fun _ => Reply {| status_code := 500; text := "[]";
                                     json := inr (DList [NonDict]) |}))
      init _ 3 eq_refl)); [reflexivity|cbn; lia|reflexivity].
  - rewrite (proj2 (X5_status_and_empty_body_first
      (Sample.worker_with Sample.all_exts)
      (Sample.net (fun _ => Reply {| status_code := 200; text := "   ";
                                     json := inr (DList [NonDict]) |}))
      init _ 3 eq_refl)); reflexivity.
Defined.

(** ** An empty batch *)

(** X6: nothing to download.  When the pagination loop ends normally with
    an empty batch, [run] reports that no posts were found and returns: its
    trace is the fetch phase followed by this one status, so it starts no
    download, makes no directory and requests no file. *)
Theorem X6_empty_batch_ends_run
    (w : worker) (env : world) (fuel : nat) (st : locals) :
  usable w getting_posts = true ->
  usable w no_posts = true ->
  result_of (fetch_loop w env fuel init) = Val tt ->
  posts (locals_of (fetch_loop w env fuel init)) = [] ->
  run w env fuel st
  = (StatusChanged getting_posts []
       :: trace_of (fetch_loop w env fuel init) ++ [StatusChanged no_posts []],
     locals_of (fetch_loop w env fuel init), Ret) /\
  existsb is_download_effect (trace_of (run w env fuel st)) = false.
Proof.
  intros Hg Hn Hr Hp.
  pose proof (fetch_loop_no_download_effect w env fuel init) as Hquiet.
  assert (Hrun : run w env fuel st
    = (StatusChanged getting_posts []
         :: trace_of (fetch_loop w env fuel init) ++ [StatusChanged no_posts []],
       locals_of (fetch_loop w env fuel init), Ret)).
  { unfold run, try_catch, run_body, bind, write, read, emit_status, emit,
      early_return, ret.
    rewrite Hg.
    destruct (fetch_loop w env fuel init) as [[t1 st1] r1].
    unfold trace_of, locals_of, result_of in *. cbn [fst snd] in *.
    subst r1. rewrite Hp. cbn. rewrite Hn. cbn.
    rewrite ?app_nil_r. reflexivity. }
  split; [exact Hrun|].
  rewrite Hrun. unfold trace_of. cbn [fst snd existsb is_download_effect orb].
  rewrite existsb_app. unfold trace_of in Hquiet. rewrite Hquiet.
  reflexivity.
Qed.

(** X6 on a server whose first page is an empty array. *)
Lemma X6_empty_batch_witness :
  let w := Sample.worker_with Sample.all_exts in
  let env := Sample.net (fun _ => Sample.page (DList [])) in
  statuses (trace_of (run w env 3 init))
  = [getting_posts; received_posts; no_posts] /\
  existsb is_download_effect (trace_of (run w env 3 init)) = false.
Proof.
  cbv zeta.
  destruct (X6_empty_batch_ends_run (Sample.worker_with Sample.all_exts)
              (Sample.net (fun _ => Sample.page (DList []))) 3 init
              eq_refl eq_refl eq_refl eq_refl) as [Hrun Hquiet].
  split; [rewrite Hrun; reflexivity|exact Hquiet].
Defined.

(** ** Files on disk *)

Lemma saved_files_app (t1 t2 : list event) :
  saved_files (t1 ++ t2) = saved_files t1 ++ saved_files t2.
Proof. unfold saved_files. apply flat_map_app. Qed.

Lemma ends_with_slash_cons (c : ascii) (s : string) :
  Path.ends_with_slash (String c s)
  = if Text.is_empty s then Ascii.eqb c Path.slash else Path.ends_with_slash s.
Proof.
  unfold Path.ends_with_slash, Text.rev.
  destruct s as [|d s]; [reflexivity|].
  cbn [Text.is_empty list_ascii_of_string].
  remember (list_ascii_of_string s) as l eqn:Hl. clear Hl.
  change (List.rev (c :: d :: l)) with (List.rev (d :: l) ++ [c]).
  destruct (List.rev (d :: l)) as [|y ys] eqn:Hr.
  - apply (f_equal (@List.length ascii)) in Hr.
    rewrite length_rev in Hr. discriminate Hr.
  - reflexivity.
Qed.

Lemma ends_with_slash_app (a b : string) :
  b <> EmptyString ->
  Path.ends_with_slash (a ++ b) = Path.ends_with_slash b.
Proof.
  intros Hb. induction a as [|c a IH]; [reflexivity|].
  cbn [String.append]. rewrite ends_with_slash_cons, IH.
  destruct (a ++ b)%string eqn:Hab; [|reflexivity].
  destruct a; [cbn in Hab; congruence|discriminate Hab].
Qed.

Lemma is_empty_app (a b : string) :
  Text.is_empty b = false -> Text.is_empty (a ++ b) = false.
Proof. destruct a; [trivial|reflexivity]. Qed.

Lemma join_open (a b : string) :
  Text.mem Path.slash b = false ->
  Text.is_empty b = false ->
  Text.is_empty (Path.join a b) = false /\
  Path.ends_with_slash (Path.join a b) = false.
Proof.
  intros Hm Hb. destruct b as [|c b]; [discriminate Hb|].
  assert (Hend : Path.ends_with_slash (String c b) = false).
  { clear Hb. revert c Hm. induction b as [|d b IH]; intros c Hm.
    - cbn [Text.mem] in Hm. rewrite orb_false_r, Ascii.eqb_sym in Hm.
      rewrite ends_with_slash_cons. exact Hm.
    - rewrite ends_with_slash_cons. cbn [Text.is_empty]. apply IH.
      cbn [Text.mem] in Hm |- *. now apply orb_false_iff in Hm as [_ Hm]. }
  cbn [Text.mem] in Hm. apply orb_false_iff in Hm as [Hc _].
  rewrite Ascii.eqb_sym in Hc. unfold Path.join. rewrite Hc.
  destruct (Text.is_empty a || Path.ends_with_slash a).
  - split; [now apply is_empty_app|].
    now rewrite ends_with_slash_app by discriminate.
  - split; [now apply is_empty_app|].
    rewrite ends_with_slash_app by discriminate.
    change ("/" ++ String c b)%string with (String "/" (String c b)).
    now rewrite ends_with_slash_cons.
Qed.

(** A category folder has a name and does not end with a slash. *)
Lemma category_folder (dir ext : string) :
  let folder := Path.join dir (subdir_of ext) in
  Text.is_empty folder = false /\ Path.ends_with_slash folder = false.
Proof.
  cbv zeta. apply join_open; unfold subdir_of;
    destruct (String.eqb ext gif_ext); try reflexivity;
    destruct (in_exts ext video_exts); reflexivity.
Qed.

(** [os.path.join] of a folder and a name without a slash. *)
Lemma join_under (folder name : string) :
  Text.is_empty folder = false ->
  Path.ends_with_slash folder = false ->
  Text.mem Path.slash name = false ->
  Path.join folder name = (folder ++ "/" ++ name)%string.
Proof.
  intros He Hs Hn. unfold Path.join. rewrite He, Hs. cbn [orb].
  destruct name as [|c name]; [reflexivity|].
  cbn [Text.mem] in Hn. apply orb_false_iff in Hn as [Hc _].
  rewrite Ascii.eqb_sym in Hc. now rewrite Hc.
Qed.

Lemma clean_no_slash (s : string) :
  Path.clean s = true -> Text.mem Path.slash s = false.
Proof.
  induction s as [|c s IH]; [reflexivity|]. cbn [Path.clean Text.mem].
  intros H. apply andb_true_iff in H as [Hc Hs]. rewrite (IH Hs), orb_false_r.
  destruct (Ascii.eqb_spec Path.slash c) as [<-|_]; [discriminate Hc|reflexivity].
Qed.

Lemma mem_app (c : ascii) (a b : string) :
  Text.mem c (a ++ b) = Text.mem c a || Text.mem c b.
Proof.
  induction a as [|d a IH]; [reflexivity|].
  cbn [String.append Text.mem]. now rewrite IH, orb_assoc.
Qed.

Lemma basename_no_slash (s : string) :
  Text.mem Path.slash s = false -> Path.basename s = s.
Proof.
  destruct s as [|c s]; [reflexivity|].
  intros H. cbn [Path.basename]. now rewrite H.
Qed.

Lemma basename_under (a s : string) :
  Text.mem Path.slash s = false ->
  Path.basename (a ++ String Path.slash s)%string = s.
Proof.
  intros H. induction a as [|c a IH].
  - cbn [String.append Path.basename Text.mem].
    rewrite Ascii.eqb_refl. cbn [orb]. now apply basename_no_slash.
  - cbn [String.append Path.basename].
    assert (Hm : Text.mem Path.slash (String c (a ++ String Path.slash s)) = true).
    { cbn [Text.mem]. apply orb_true_iff. right.
      clear IH. induction a as [|d a IHa]; cbn [String.append Text.mem].
      - now rewrite Ascii.eqb_refl.
      - rewrite IHa. apply orb_true_r. }
    rewrite Hm. exact IH.
Qed.

Lemma download_item_saved
    (w : worker) (env : world) (total : Z) (p : post) (st : locals) :
  let out := download_item w env total p st in
  downloaded (locals_of out)
  = downloaded st + Text.len (saved_files (trace_of out)) /\
  (forall f, In (Saved f) (trace_of out) ->
     exists d url path rest,
       p = PostDict d /\ get "file_url" d = Some (PStr url) /\
       urlparse_path env url = inr path /\
       let filename := target_filename (get_or "id" (PStr "") d) path in
       f = filepath_of w filename /\
       in_exts (target_ext filename) (allowed_exts w) = true /\
       trace_of out
       = MakeDirs (Path.join (download_dir w) (subdir_of (target_ext filename)))
           :: GetFile url :: Saved f :: rest).
Proof.
  cbv zeta. unfold_item. split_item.
  all: split; [unfold Text.len, saved_files; cbn; lia|].
  all: intros f Hf; cbn in Hf;
    repeat match goal with
      | H : _ \/ _ |- _ => destruct H as [H|H]
      | H : False |- _ => destruct H
      end; try discriminate.
  all: injection Hf as <-; do 4 eexists.
  all: split; [reflexivity|]; split; [eassumption|]; split; [eassumption|].
  all: split; [reflexivity|].
  all: split;
    [ match goal with
      | H : negb (in_exts _ _) = false |- _ =>
          apply negb_false_iff in H; exact H
      end | reflexivity ].
Qed.

Lemma in_saved_files (t : list event) (f : string) :
  In f (saved_files t) <-> In (Saved f) t.
Proof.
  unfold saved_files. rewrite in_flat_map. split.
  - intros (ev & Hev & Hf). destruct ev; cbn in Hf; try contradiction.
    destruct Hf as [->|[]]. exact Hev.
  - intros H. exists (Saved f). split; [exact H|now left].
Qed.

(** X7: [downloaded] counts the transfers that were written in full.
    After any part of the batch, and however the loop ends, the counter has
    grown by exactly the number of completed writes, each counted once for
    its post: two posts with the same target path count twice, though the
    second write replaces the file of the first. *)
Theorem X7_downloaded_counts_completed_writes
    (w : worker) (env : world) (total : Z) (l : list post) (st : locals) :
  downloaded (locals_of (download_loop w env total l st))
  = downloaded st
    + Text.len (saved_files (trace_of (download_loop w env total l st))).
Proof.
  revert st. induction l as [|p r IH]; intros st.
  - cbn. unfold Text.len. cbn. lia.
  - cbn [download_loop]. unfold bind.
    pose proof (download_item_saved w env total p st) as [Hcount _].
    cbv zeta in Hcount.
    destruct (download_item w env total p st) as [[t st'] [[]| |e|]];
      unfold trace_of, locals_of in *; cbn [fst snd] in *;
      try exact Hcount.
    specialize (IH st').
    destruct (download_loop w env total r st') as [[t2 st2] r2].
    cbn [fst snd] in *.
    rewrite IH, Hcount, saved_files_app. unfold Text.len.
    rewrite length_app. lia.
Qed.

(** The same post twice in a batch: one path, written twice and counted
    twice. *)
Example same_path_counted_twice :
  let p := Sample.a_post 7 "https://h/a.png" in
  let out := download_loop (Sample.worker_with Sample.all_exts)
               (Sample.net Sample.no_page) 2 [p; p] init in
  saved_files (trace_of out)
  = ["downloads/cat/images/7_a.png"; "downloads/cat/images/7_a.png"] /\
  downloaded (locals_of out) = 2.
Proof. vm_compute. split; reflexivity. Qed.

(** When a built name holds no slash: in the ordinary branch, and whenever
    the text of the identifier holds none. *)
Lemma target_filename_no_slash (post_id : pyval) (path : string) :
  let base := Path.basename path in
  Text.is_empty base || negb (Text.mem Path.dot base) = false \/
  Text.mem Path.slash (py_str post_id) = false ->
  Text.mem Path.slash (target_filename post_id path) = false.
Proof.
  cbv zeta. destruct (target_filename_spec post_id path) as (Hord & Hsyn & _).
  cbv zeta in Hord, Hsyn.
  destruct (Text.is_empty (Path.basename path)
            || negb (Text.mem Path.dot (Path.basename path))) eqn:Hb.
  - intros [H|H]; [discriminate H|].
    rewrite (Hsyn eq_refl), mem_app, H. reflexivity.
  - intros _. apply clean_no_slash. apply (Hord eq_refl).
Qed.

Lemma download_item_placed
    (w : worker) (env : world) (total : Z) (p : post) (st : locals) (f : string)
    (t : list event) :
  In (Saved f) (trace_of (download_item w env total p st)) ->
  exists d url path,
    p = PostDict d /\ get "file_url" d = Some (PStr url) /\
    urlparse_path env url = inr path /\
    let filename := target_filename (get_or "id" (PStr "") d) path in
    let folder := Path.join (download_dir w) (subdir_of (target_ext filename)) in
    f = Path.join folder filename /\
    in_exts (target_ext filename) (allowed_exts w) = true /\
    In (MakeDirs folder) (trace_of (download_item w env total p st) ++ t) /\
    (Text.mem Path.slash filename = false ->
     f = (folder ++ "/" ++ filename)%string /\ Path.basename f = filename).
Proof.
  intros Hin.
  destruct (download_item_saved w env total p st) as [_ Hitem].
  destruct (Hitem f Hin) as (d & url & path & rest & Hp & Hu & Hpath & H).
  cbv zeta in H. destruct H as (Hf & Hok & Ht).
  exists d, url, path. split; [exact Hp|]. split; [exact Hu|].
  split; [exact Hpath|]. cbv zeta.
  split; [exact Hf|]. split; [exact Hok|]. split; [rewrite Ht; now left|].
  intros Hn.
  destruct (category_folder (download_dir w)
              (target_ext (target_filename (get_or "id" (PStr "") d) path)))
    as [He Hs].
  assert (Hj := join_under _ _ He Hs Hn).
  unfold filepath_of in Hf. rewrite Hj in Hf. split; [exact Hf|].
  rewrite Hf. apply basename_under. exact Hn.
Qed.

(** X8: where files go.  Every file the loop writes comes from a post of
    the batch whose file URL is a string that [urlparse] accepts; its path
    is [os.path.join] of the category folder of the built name, under the
    download directory, and that name; the lower-cased extension of the
    name is allowed, and [os.makedirs] has been called on that folder.
    When the built name holds no slash, the file lies directly in that
    folder under that name; this is so for every name built in the
    ordinary branch and for every identifier whose text holds no slash, as
    every integer.  Within an item, the call for the folder, the request
    for the post's own file URL and the file come first, in this order. *)
Theorem X8_files_in_made_category_folders
    (w : worker) (env : world) (total : Z) (l : list post) (p : post)
    (st : locals) :
  (forall f,
      In (Saved f) (trace_of (download_loop w env total l st)) ->
      exists d url path,
        In (PostDict d) l /\ get "file_url" d = Some (PStr url) /\
        urlparse_path env url = inr path /\
        let filename := target_filename (get_or "id" (PStr "") d) path in
        let folder :=
          Path.join (download_dir w) (subdir_of (target_ext filename)) in
        f = Path.join folder filename /\
        in_exts (target_ext filename) (allowed_exts w) = true /\
        In (MakeDirs folder) (trace_of (download_loop w env total l st)) /\
        (Text.mem Path.slash filename = false ->
         f = (folder ++ "/" ++ filename)%string /\
         Path.basename f = filename)) /\
  (forall post_id path,
      Text.is_empty (Path.basename path)
      || negb (Text.mem Path.dot (Path.basename path)) = false \/
      Text.mem Path.slash (py_str post_id) = false ->
      Text.mem Path.slash (target_filename post_id path) = false) /\
  (forall n path,
      Text.mem Path.slash (target_filename (PInt n) path) = false) /\
  (forall f,
      In (Saved f) (trace_of (download_item w env total p st)) ->
      exists dir url d rest,
        trace_of (download_item w env total p st)
        = MakeDirs dir :: GetFile url :: Saved f :: rest /\
        p = PostDict d /\ get "file_url" d = Some (PStr url)).
Proof.
  split; [|split; [|split]].
  - revert st. induction l as [|q r IH]; intros st f Hf; [destruct Hf|].
    cbn [download_loop] in *. unfold bind in *.
    pose proof (fun t => download_item_placed w env total q st f t) as Hhere.
    destruct (download_item w env total q st) as [[t st'] [[]| |e|]];
      unfold trace_of in *; cbn [fst snd] in *.
    2-4: destruct (Hhere [] Hf) as (d & url & path & -> & H);
      rewrite app_nil_r in H; exists d, url, path;
      split; [now left|exact H].
    specialize (IH st').
    destruct (download_loop w env total r st') as [[t2 st2] r2].
    cbn [fst snd] in *. apply in_app_or in Hf as [Hf|Hf].
    + destruct (Hhere t2 Hf) as (d & url & path & -> & H).
      exists d, url, path. split; [now left|exact H].
    + destruct (IH f Hf) as (d & url & path & Hd & Hu & Hpath & H).
      cbv zeta in H. destruct H as (Hfile & Hok & Hdir & Hin).
      exists d, url, path. split; [now right|]. split; [exact Hu|].
      split; [exact Hpath|]. cbv zeta. split; [exact Hfile|].
      split; [exact Hok|]. split; [apply in_or_app; now right|exact Hin].
  - intros post_id path. apply target_filename_no_slash.
  - intros n path. apply target_filename_no_slash. right.
    apply clean_no_slash, clean_str_of_Z.
  - intros f Hf.
    destruct (download_item_saved w env total p st) as [_ Hitem].
    destruct (Hitem f Hf) as (d & url & path & rest & Hp & Hu & _ & H).
    cbv zeta in H. destruct H as (_ & _ & Ht).
    eexists _, url, d, rest. split; [exact Ht|]. now split.
Qed.

(** An identifier with a slash, in the synthesized branch, takes the file
    out of the download directory: [os.path.join] drops the folder in front
    of an absolute name. *)
Example synthesized_name_leaves_the_folder :
  let p := PostDict [("id", PStr "/tmp/agdg_outside/x");
                     ("file_url", PStr "https://h/images/ab/file")] in
  trace_of (download_item (Sample.worker_with Sample.all_exts)
              (Sample.net Sample.no_page) 1 p init)
  = [MakeDirs "downloads/cat/images"; GetFile "https://h/images/ab/file";
     Saved "/tmp/agdg_outside/x.jpg"; ProgressUpdated 1 1].
Proof. reflexivity. Qed.

(** X8 on a batch of a picture with an integer identifier. *)
Lemma X8_files_witness :
  let w := Sample.worker_with Sample.all_exts in
  let env := Sample.net Sample.no_page in
  let l := [Sample.a_post 7 "https://h/a.png"] in
  let f := "downloads/cat/images/7_a.png" in
  exists d url path,
    In (PostDict d) l /\ get "file_url" d = Some (PStr url) /\
    urlparse_path env url = inr path /\
    let filename := target_filename (get_or "id" (PStr "") d) path in
    let folder :=
      Path.join (download_dir w) (subdir_of (target_ext filename)) in
    f = Path.join folder filename /\
    in_exts (target_ext filename) (allowed_exts w) = true /\
    In (MakeDirs folder) (trace_of (download_loop w env 1 l init)) /\
    (Text.mem Path.slash filename = false ->
     f = (folder ++ "/" ++ filename)%string /\
     Path.basename f = filename).
Proof.
  cbv zeta.
  apply (proj1 (X8_files_in_made_category_folders
                  (Sample.worker_with Sample.all_exts)
                  (Sample.net Sample.no_page) 1
                  [Sample.a_post 7 "https://h/a.png"] NonDict init)).
  right. right. left. reflexivity.
Defined.

(** ** Failed transfers *)

(** X9: a failed transfer is reported and passed over.  When the transfer
    of an allowed file raises, the item emits the download-error status with
    the URL and the exception, then its progress event; [downloaded] stays
    as it was, no file counts as written, and the item falls through to the
    next one. *)
Theorem X9_failed_transfer_is_skipped
    (w : worker) (env : world) (total : Z) (d : dict) (url path : string)
    (e : exn) (st : locals) :
  get "file_url" d = Some (PStr url) ->
  truthy (PStr url) = true ->
  urlparse_path env url = inr path ->
  let filename := target_filename (get_or "id" (PStr "") d) path in
  let dir := Path.join (download_dir w) (subdir_of (target_ext filename)) in
  in_exts (target_ext filename) (allowed_exts w) = true ->
  makedirs env dir = None ->
  transfer env url (Path.join dir filename) = Some e ->
  usable w download_error = true ->
  download_item w env total (PostDict d) st
  = ([MakeDirs dir; GetFile url;
      StatusChanged download_error [V (PStr url); E e];
      ProgressUpdated (processed st + 1) total],
     set_processed st (processed st + 1), Val tt).
Proof.
  intros Hurl Ht Hpath filename dir Hext Hmk Htr Hu.
  unfold_item. rewrite Hurl, Ht. cbn. rewrite Hpath. cbn.
  fold filename. rewrite Hext. cbn. fold dir. rewrite Hmk. cbn.
  rewrite Htr. cbn. rewrite Hu. reflexivity.
Qed.

(** X9 on a post whose transfer ends in a 404. *)
Lemma X9_failed_transfer_witness :
  download_item (Sample.worker_with Sample.all_exts)
    (Sample.broken_net Sample.no_page) 1
    (Sample.a_post 7 "https://h/a.png") init
  = ([MakeDirs "downloads/cat/images"; GetFile "https://h/a.png";
      StatusChanged download_error
        [V (PStr "https://h/a.png"); E (RequestError "404 Client Error")];
      ProgressUpdated 1 1],
     set_processed init 1, Val tt).
Proof.
  apply (X9_failed_transfer_is_skipped
           (Sample.worker_with Sample.all_exts)
           (Sample.broken_net Sample.no_page) 1
           [("id", PInt 7); ("file_url", PStr "https://h/a.png")]
           "https://h/a.png" "/a.png" (RequestError "404 Client Error") init);
    reflexivity.
Defined.

Lemma download_item_gets_through
    (w : worker) (env : world) (total : Z) (p : post) (st : locals) :
  usable w download_error = true ->
  (forall dir, makedirs env dir = None) ->
  parsable env p ->
  result_of (download_item w env total p st) = Val tt /\
  processed (locals_of (download_item w env total p st)) = processed st + 1 /\
  List.length (progresses (trace_of (download_item w env total p st))) = 1%nat.
Proof.
  intros Hu Hmk Hp. unfold_item.
  destruct p as [|d]; cbn; [repeat split|].
  cbn in Hp. destruct (get "file_url" d) as [url|]; cbn; [|repeat split].
  destruct (truthy url) eqn:Ht; cbn; [|repeat split].
  destruct (Hp eq_refl) as (s & path & -> & Hpath). rewrite Hpath. cbn.
  match goal with
  | |- context [negb (in_exts ?e ?a)] => destruct (in_exts e a); cbn
  end; [|repeat split].
  rewrite Hmk. cbn.
  match goal with
  | |- context [transfer env ?u ?f] => destruct (transfer env u f); cbn
  end.
  - rewrite Hu. cbn. repeat split.
  - match goal with
    | |- context [?a mod 10 =? 0] => destruct (a mod 10 =? 0); cbn
    end; [|repeat split].
    destruct (usable w processed_downloaded); cbn; [repeat split|].
    rewrite Hu. cbn. repeat split.
Qed.

Lemma progresses_app (t1 t2 : list event) :
  progresses (t1 ++ t2) = progresses t1 ++ progresses t2.
Proof. unfold progresses. apply flat_map_app. Qed.

(** X10: no failed transfer can stop the loop.  With a usable
    download-error template, directories that can be made and file URLs
    that are strings [urlparse] accepts, and with every transfer ending, by
    success or by an exception, the loop gets through the whole batch
    whichever transfers fail: it ends normally, [processed] has grown by
    the size of the batch, and there is one progress event for each record.
    (A transfer that never returns is not covered: no timeout is set on
    line 153.) *)
Theorem X10_loop_gets_through_the_batch
    (w : worker) (env : world) (total : Z) (l : list post) (st : locals) :
  usable w download_error = true ->
  (forall dir, makedirs env dir = None) ->
  Forall (parsable env) l ->
  let out := download_loop w env total l st in
  result_of out = Val tt /\
  processed (locals_of out) = processed st + Text.len l /\
  List.length (progresses (trace_of out)) = List.length l.
Proof.
  intros Hu Hmk Hl. cbv zeta. revert st.
  induction Hl as [|p r Hp Hr IH]; intros st.
  - cbn. unfold Text.len. cbn. repeat split. lia.
  - cbn [download_loop]. unfold bind.
    destruct (download_item_gets_through w env total p st Hu Hmk Hp)
      as (Hv & Hproc & Hone).
    destruct (download_item w env total p st) as [[t st'] r1].
    unfold trace_of, locals_of, result_of in *. cbn [fst snd] in *.
    subst r1. specialize (IH st').
    destruct (download_loop w env total r st') as [[t2 st2] r2].
    cbn [fst snd] in *. destruct IH as (Hv2 & Hproc2 & Hn2).
    split; [exact Hv2|]. split.
    + rewrite Hproc2, Hproc. unfold Text.len. cbn [List.length].
      rewrite Nat2Z.inj_succ. lia.
    + rewrite progresses_app, length_app, Hone, Hn2. reflexivity.
Qed.

(** X10 on three posts with every transfer failing. *)
Lemma X10_loop_gets_through_witness :
  let batch := [Sample.a_post 7 "https://h/a.png"; NonDict;
                Sample.a_post 8 "https://h/b.gif"] in
  let out := download_loop (Sample.worker_with Sample.all_exts)
               (Sample.broken_net Sample.no_page) 3 batch init in
  result_of out = Val tt /\ processed (locals_of out) = 3 /\
  List.length (progresses (trace_of out)) = 3%nat.
Proof.
  cbv zeta.
  apply (X10_loop_gets_through_the_batch
           (Sample.worker_with Sample.all_exts)
           (Sample.broken_net Sample.no_page) 3
           [Sample.a_post 7 "https://h/a.png"; NonDict;
            Sample.a_post 8 "https://h/b.gif"] init).
  - reflexivity.
  - intros dir. reflexivity.
  - repeat constructor; cbn; intros _; eexists _, _; split; reflexivity.
Defined.

(** ** The progress events of the download loop *)

Lemma download_item_progresses
    (w : worker) (env : world) (total : Z) (p : post) (st : locals) :
  let out := download_item w env total p st in
  processed (locals_of out) = processed st + 1 /\
  progresses (trace_of out)
  = match result_of out with
    | Val _ => [(processed st + 1, total)]
    | _ => []
    end.
Proof.
  cbv zeta. unfold_item. split_item. all: split; reflexivity.
Qed.

Lemma counting_succ (n total : Z) (k : nat) :
  counting n total (Datatypes.S k) = (n + 1, total) :: counting (n + 1) total k.
Proof.
  unfold counting. cbn [seq List.map]. f_equal.
  rewrite <- seq_shift, map_map. apply map_ext.
  intros i. f_equal. lia.
Qed.

Lemma download_loop_progresses
    (w : worker) (env : world) (total : Z) (l : list post) :
  forall st,
    exists k : nat,
      (k <= List.length l)%nat /\
      progresses (trace_of (download_loop w env total l st))
      = counting (processed st) total k /\
      (result_of (download_loop w env total l st) = Val tt ->
       k = List.length l).
Proof.
  induction l as [|p r IH]; intros st.
  - exists 0%nat. repeat split. cbn. lia.
  - cbn [download_loop]. unfold bind.
    pose proof (download_item_progresses w env total p st) as [Hproc Hprog].
    cbv zeta in Hproc, Hprog.
    destruct (download_item w env total p st) as [[t st'] [[]| |e|]];
      unfold trace_of, locals_of, result_of in *; cbn [fst snd] in *;
      try (exists 0%nat; split; [lia|]; split; [exact Hprog|discriminate]).
    destruct (IH st') as (k & Hk & Hprog2 & Hval2).
    destruct (download_loop w env total r st') as [[t2 st2] r2].
    cbn [fst snd] in *. exists (Datatypes.S k).
    split; [cbn; lia|]. split.
    + rewrite progresses_app, Hprog, Hprog2, Hproc, counting_succ.
      reflexivity.
    + intros Hv. cbn. now rewrite (Hval2 Hv).
Qed.

(** X11: the progress events count the records.  The progress events of
    the download loop are (n + 1, total), (n + 2, total), ... in this order,
    where n is [processed] at the start: one for each record gone through,
    so as many as the batch holds when the loop ends normally. *)
Theorem X11_progress_counts_up
    (w : worker) (env : world) (total : Z) (l : list post) (st : locals) :
  exists k : nat,
    (k <= List.length l)%nat /\
    progresses (trace_of (download_loop w env total l st))
    = counting (processed st) total k /\
    (result_of (download_loop w env total l st) = Val tt ->
     k = List.length l).
Proof.
  destruct (download_loop_progresses w env total l st) as (k & Hk & Hp & Hv).
  exists k. split; [exact Hk|]. split; [exact Hp|exact Hv].
Qed.

(** ** The progress bar during the download *)

Lemma bar_calls_progresses (t : list event) :
  bar_calls t
  = flat_map (fun cn => update_progress (fst cn) (snd cn)) (progresses t).
Proof.
  unfold bar_calls, progresses.
  induction t as [|ev t IH]; [reflexivity|].
  cbn [flat_map]. rewrite flat_map_app, IH. f_equal.
  destruct ev; cbn; try reflexivity. now rewrite app_nil_r.
Qed.

(** X12: the bar is never indeterminate while files are downloaded.  For
    the progress events of the download loop, started on counters at 0 and a
    total that is the size of the batch, [update_progress] only sets the
    range from 0 to that total, which is positive, and values from 1 to the
    total: every value lies in the range, and the branch for a total of 0 is
    not taken. *)
Theorem X12_bar_determinate_during_download
    (w : worker) (env : world) (done rest : list post) (st : locals) :
  let total_posts := Text.len (done ++ rest) in
  Forall (determinate total_posts)
    (bar_calls (trace_of (download_loop w env total_posts done
                            (reset_counters st)))).
Proof.
  cbv zeta.
  destruct (download_loop_progresses w env (Text.len (done ++ rest)) done
              (reset_counters st)) as (k & Hk & Hp & _).
  rewrite bar_calls_progresses, Hp.
  cbn [reset_counters set_processed processed].
  assert (Hlen : Z.of_nat (List.length done) <= Text.len (done ++ rest)).
  { unfold Text.len. rewrite length_app. lia. }
  unfold counting. rewrite flat_map_concat_map, map_map.
  apply Forall_concat, Forall_map, Forall_forall.
  intros i Hi. apply in_seq in Hi. cbn [fst snd].
  unfold update_progress.
  destruct (Text.len (done ++ rest) >? 0) eqn:Hpos; [|lia].
  repeat constructor; cbn; lia.
Qed.

(** * Properties of the main window *)

(** ** Characters and bytes *)

Lemma all_chars_cons (P : ascii -> bool) (c : ascii) (s : string) :
  all_chars P (String c s) = P c && all_chars P s.
Proof. reflexivity. Qed.

Lemma all_chars_app (P : ascii -> bool) (a b : string) :
  all_chars P (a ++ b) = all_chars P a && all_chars P b.
Proof.
  induction a as [|c a IH]; [reflexivity|].
  cbn [String.append]. now rewrite !all_chars_cons, IH, andb_assoc.
Qed.

Lemma all_chars_concat (P : ascii -> bool) (l : list string) :
  all_chars P (Utf8.concat l) = forallb (all_chars P) l.
Proof.
  induction l as [|g l IH]; [reflexivity|].
  cbn [Utf8.concat fold_right forallb]. fold (Utf8.concat l).
  now rewrite all_chars_app, IH.
Qed.

Lemma all_chars_mem (P : ascii -> bool) (c : ascii) (s : string) :
  all_chars P s = true -> P c = false -> Text.mem c s = false.
Proof.
  intros Hs Hc. induction s as [|d s IH]; [reflexivity|].
  rewrite all_chars_cons in Hs. apply andb_true_iff in Hs as [Hd Hs].
  cbn [Text.mem]. rewrite (IH Hs), orb_false_r.
  destruct (Ascii.eqb_spec c d) as [->|_]; [congruence|reflexivity].
Qed.

(** The characters of a text make up the text. *)
Lemma concat_chars (s : string) : Utf8.concat (Utf8.chars s) = s.
Proof.
  induction s as [|c s IH]; [reflexivity|].
  cbn [Utf8.chars]. destruct (Utf8.chars s) as [|g gs].
  - cbn in IH. subst. reflexivity.
  - destruct (Utf8.head_continues g); cbn in *; now rewrite IH.
Qed.

Lemma fresh_trails (g : string) : fresh g = true -> trails g = true.
Proof.
  destruct g as [|c t]; [discriminate|]. cbn. intros H.
  now apply andb_true_iff in H as [_ H].
Qed.

Lemma all_fresh_regular (l : list string) :
  forallb fresh l = true -> regular l = true.
Proof.
  destruct l as [|g r]; [reflexivity|]. cbn [forallb regular]. intros H.
  apply andb_true_iff in H as [Hg Hr]. now rewrite (fresh_trails g Hg), Hr.
Qed.

Lemma chars_regular (s : string) : regular (Utf8.chars s) = true.
Proof.
  induction s as [|c s IH]; [reflexivity|].
  cbn [Utf8.chars]. destruct (Utf8.chars s) as [|g gs]; [reflexivity|].
  cbn [regular] in IH. apply andb_true_iff in IH as [Hg Hgs].
  destruct (Utf8.head_continues g) eqn:Hh.
  - cbn [regular trails]. rewrite Hgs, andb_true_r.
    destruct g as [|d t]; [discriminate|]. cbn in Hh, Hg.
    rewrite all_chars_cons. now rewrite Hh.
  - cbn [regular trails forallb]. rewrite Hgs, andb_true_r. cbn.
    destruct g as [|d t]; [discriminate|]. cbn in Hh, Hg. cbn.
    now rewrite Hh, Hg.
Qed.

(** A byte, its continuation bytes, and then a text that starts with a
    byte of its own: the first character is that byte with its
    continuation bytes. *)
Lemma chars_trailing (t rest : string) :
  all_chars Utf8.continues t = true ->
  Utf8.head_continues rest = false ->
  forall c, Utf8.chars (String c (t ++ rest)) = String c t :: Utf8.chars rest.
Proof.
  revert rest. induction t as [|d t IH]; intros rest Ht Hr c.
  - cbn [String.append Utf8.chars].
    destruct rest as [|e rest]; [reflexivity|].
    cbn [Utf8.chars] in *.
    destruct (Utf8.chars rest) as [|g gs].
    + cbn. cbn in Hr. now rewrite Hr.
    + destruct (Utf8.head_continues g); cbn; cbn in Hr; now rewrite Hr.
  - rewrite all_chars_cons in Ht. apply andb_true_iff in Ht as [Hd Ht].
    change (Utf8.chars (String c (String d (t ++ rest)))
            = String c (String d t) :: Utf8.chars rest).
    assert (H := IH rest Ht Hr d).
    remember (String d (t ++ rest)) as tail eqn:Htail.
    cbn [Utf8.chars]. rewrite H. cbn [Utf8.head_continues]. now rewrite Hd.
Qed.

Lemma head_continues_concat (l : list string) :
  forallb fresh l = true -> Utf8.head_continues (Utf8.concat l) = false.
Proof.
  destruct l as [|g r]; [reflexivity|]. cbn [forallb Utf8.concat fold_right].
  intros H. apply andb_true_iff in H as [Hg _].
  destruct g as [|c t]; [discriminate|]. cbn in *.
  apply andb_true_iff in Hg as [Hc _]. now apply negb_true_iff in Hc.
Qed.

(** The characters of the text of a regular list are the list. *)
Lemma chars_concat (l : list string) :
  regular l = true -> Utf8.chars (Utf8.concat l) = l.
Proof.
  assert (Hf : forall l, forallb fresh l = true -> Utf8.chars (Utf8.concat l) = l).
  { induction l0 as [|g r IH]; [reflexivity|]. cbn [forallb]. intros H.
    apply andb_true_iff in H as [Hg Hr].
    destruct g as [|c t]; [discriminate|]. cbn in Hg.
    apply andb_true_iff in Hg as [_ Ht].
    change (Utf8.concat (String c t :: r)) with (String c (t ++ Utf8.concat r)).
    rewrite (chars_trailing t _ Ht (head_continues_concat r Hr)).
    now rewrite (IH Hr). }
  destruct l as [|g r]; [reflexivity|]. cbn [regular]. intros H.
  apply andb_true_iff in H as [Hg Hr].
  destruct g as [|c t]; [discriminate|]. cbn in Hg.
  change (Utf8.concat (String c t :: r)) with (String c (t ++ Utf8.concat r)).
  rewrite (chars_trailing t _ Hg (head_continues_concat r Hr)).
  now rewrite (Hf r Hr).
Qed.

Lemma regular_tail (g : string) (r : list string) :
  regular (g :: r) = true -> regular r = true.
Proof.
  cbn [regular]. intros H. apply andb_true_iff in H as [_ H].
  now apply all_fresh_regular.
Qed.

Lemma regular_lstrip (l : list string) :
  regular l = true -> regular (Utf8.lstrip l) = true.
Proof.
  induction l as [|g r IH]; [trivial|]. intros H. cbn [Utf8.lstrip].
  destruct (Utf8.is_space g); [|exact H].
  apply IH. now apply (regular_tail g).
Qed.

Lemma forallb_rstrip (P : string -> bool) (l : list string) :
  forallb P l = true -> forallb P (Utf8.rstrip l) = true.
Proof.
  induction l as [|g r IH]; [trivial|]. cbn [forallb Utf8.rstrip].
  intros H. apply andb_true_iff in H as [Hg Hr]. specialize (IH Hr).
  destruct (Utf8.rstrip r) as [|g' r'].
  - destruct (Utf8.is_space g); [reflexivity|]. cbn. now rewrite Hg.
  - cbn [forallb] in *. now rewrite Hg, IH.
Qed.

Lemma forallb_lstrip (P : string -> bool) (l : list string) :
  forallb P l = true -> forallb P (Utf8.lstrip l) = true.
Proof.
  induction l as [|g r IH]; [trivial|]. intros H. cbn [Utf8.lstrip].
  destruct (Utf8.is_space g); [|exact H].
  cbn [forallb] in H. apply andb_true_iff in H as [_ Hr]. now apply IH.
Qed.

Lemma forallb_firstn (P : string -> bool) (n : nat) (l : list string) :
  forallb P l = true -> forallb P (firstn n l) = true.
Proof.
  revert l. induction n as [|n IH]; intros l H; [reflexivity|].
  destruct l as [|g r]; [reflexivity|]. cbn [firstn forallb] in *.
  apply andb_true_iff in H as [Hg Hr]. now rewrite Hg, (IH r Hr).
Qed.

Lemma forallb_filter (P : string -> bool) (l : list string) :
  forallb P (filter P l) = true.
Proof.
  induction l as [|g r IH]; [reflexivity|]. cbn [filter].
  destruct (P g) eqn:Hg; [|exact IH]. cbn [forallb]. now rewrite Hg, IH.
Qed.

Lemma regular_rstrip (l : list string) :
  regular l = true -> regular (Utf8.rstrip l) = true.
Proof.
  destruct l as [|g r]; [trivial|]. cbn [regular Utf8.rstrip]. intros H.
  apply andb_true_iff in H as [Hg Hr].
  pose proof (forallb_rstrip fresh r Hr) as Hs.
  destruct (Utf8.rstrip r) as [|g' r'].
  - destruct (Utf8.is_space g); [reflexivity|]. cbn. now rewrite Hg.
  - cbn [regular]. now rewrite Hg, Hs.
Qed.

Lemma regular_firstn (n : nat) (l : list string) :
  regular l = true -> regular (firstn n l) = true.
Proof.
  destruct n as [|n]; [reflexivity|].
  destruct l as [|g r]; [trivial|]. cbn [regular firstn]. intros H.
  apply andb_true_iff in H as [Hg Hr].
  now rewrite Hg, (forallb_firstn fresh n r Hr).
Qed.

(** [strip] and a slice, character by character. *)
Lemma chars_strip (s : string) :
  Utf8.chars (Utf8.strip s) = Utf8.rstrip (Utf8.lstrip (Utf8.chars s)).
Proof.
  unfold Utf8.strip. apply chars_concat.
  apply regular_rstrip, regular_lstrip, chars_regular.
Qed.

Lemma chars_take (n : nat) (s : string) :
  Utf8.chars (Utf8.take n s) = firstn n (Utf8.chars s).
Proof.
  unfold Utf8.take. apply chars_concat. apply regular_firstn, chars_regular.
Qed.

Lemma take_len (n : nat) (s : string) : (Utf8.len (Utf8.take n s) <= n)%nat.
Proof. unfold Utf8.len. rewrite chars_take. apply firstn_le_length. Qed.

(** ** The folder of a query *)

(** The white-space characters beyond ASCII are characters of their own,
    made of bytes beyond ASCII. *)
Lemma wide_spaces_fresh (g : string) :
  In g Utf8.wide_spaces ->
  fresh g = true /\ all_chars dir_byte g = true /\ dir_char g = true.
Proof.
  intros H. cbn in H.
  repeat (destruct H as [<-|H]; [vm_compute; auto|]). destruct H.
Qed.

Lemma dir_char_cases (g : string) :
  dir_char g = true ->
  (exists c, g = String c EmptyString /\ (word_byte c || Text.is_space c) = true) \/
  In g Utf8.wide_spaces.
Proof.
  unfold dir_char, Utf8.is_space.
  destruct g as [|c [|d t]]; intros H.
  - discriminate H.
  - left. now exists c.
  - right. apply existsb_exists in H as (x & Hx & He).
    apply String.eqb_eq in He. now subst.
Qed.

Lemma ascii_dir_byte (c : ascii) :
  (word_byte c || Text.is_space c) = true ->
  Utf8.continues c = false /\ dir_byte c = true.
Proof.
  destruct c as [[] [] [] [] [] [] [] []]; vm_compute; intros H;
    (discriminate H || auto).
Qed.

Lemma dir_char_fresh (g : string) : dir_char g = true -> fresh g = true.
Proof.
  intros H. destruct (dir_char_cases g H) as [(c & -> & Hc)|Hw].
  - cbn. destruct (ascii_dir_byte c Hc) as [-> _]. reflexivity.
  - now apply wide_spaces_fresh.
Qed.

Lemma dir_char_bytes (g : string) :
  dir_char g = true -> all_chars dir_byte g = true.
Proof.
  intros H. destruct (dir_char_cases g H) as [(c & -> & Hc)|Hw].
  - rewrite all_chars_cons. destruct (ascii_dir_byte c Hc) as [_ ->]. reflexivity.
  - now apply wide_spaces_fresh.
Qed.

Lemma forallb_impl (P Q : string -> bool) (l : list string) :
  (forall g, P g = true -> Q g = true) ->
  forallb P l = true -> forallb Q l = true.
Proof.
  intros HPQ. induction l as [|g r IH]; [trivial|]. cbn [forallb].
  intros H. apply andb_true_iff in H as [Hg Hr].
  now rewrite (HPQ g Hg), (IH Hr).
Qed.

(** What line 333 keeps, character by character. *)
Lemma chars_keep_dir (s : string) :
  Utf8.chars (keep_chars dir_char s) = filter dir_char (Utf8.chars s).
Proof.
  unfold keep_chars. apply chars_concat, all_fresh_regular.
  apply (forallb_impl dir_char fresh); [exact dir_char_fresh|].
  apply forallb_filter.
Qed.

Lemma dir_byte_legal (c : ascii) : dir_byte c = true -> Path.illegal c = false.
Proof.
  destruct c as [[] [] [] [] [] [] [] []]; vm_compute; congruence.
Qed.

Lemma all_chars_clean (s : string) :
  all_chars dir_byte s = true -> Path.clean s = true.
Proof.
  induction s as [|c s IH]; intros H; [reflexivity|].
  rewrite all_chars_cons in H. apply andb_true_iff in H as [Hc Hs].
  cbn [Path.clean]. now rewrite (dir_byte_legal c Hc), (IH Hs).
Qed.

Lemma dir_name_chars (original_tags : string) :
  forallb dir_char (Utf8.chars (dir_name original_tags)) = true /\
  all_chars dir_byte (dir_name original_tags) = true /\
  dir_name original_tags <> EmptyString /\
  (Utf8.len (dir_name original_tags) <= 50)%nat.
Proof.
  assert (Hbytes : forall s,
             forallb dir_char (Utf8.chars s) = true ->
             all_chars dir_byte s = true).
  { intros s H. rewrite <- (concat_chars s), all_chars_concat.
    apply (forallb_impl dir_char); [exact dir_char_bytes|exact H]. }
  unfold dir_name.
  destruct (Utf8.take 50 (Utf8.strip (keep_chars dir_char original_tags)))
    as [|c s] eqn:Hn; cbn [Text.is_empty].
  - repeat split; [discriminate|cbv; lia].
  - rewrite <- Hn.
    assert (Hall : forallb dir_char
                     (Utf8.chars
                        (Utf8.take 50
                           (Utf8.strip (keep_chars dir_char original_tags))))
                   = true).
    { rewrite chars_take, chars_strip, chars_keep_dir.
      apply forallb_firstn, forallb_rstrip, forallb_lstrip, forallb_filter. }
    split; [exact Hall|]. split; [now apply Hbytes|].
    split; [rewrite Hn; discriminate|apply take_len].
Qed.

(** X13: the folder of a query is a direct child of [downloads].  Whatever
    the tags, the folder name is not empty and has at most 50 characters,
    each an ASCII letter, a digit, a hyphen or a white-space character: it
    holds no slash, no dot and none of the characters illegal in file
    names; so the download directory is [downloads/] followed by that name,
    and the name is its last component. *)
Theorem X13_query_folder_stays_under_downloads (original_tags : string) :
  let name := dir_name original_tags in
  name <> EmptyString /\
  (Utf8.len name <= 50)%nat /\
  forallb dir_char (Utf8.chars name) = true /\
  Text.mem Path.slash name = false /\
  Text.mem Path.dot name = false /\
  Path.clean name = true /\
  Path.join "downloads" name = ("downloads/" ++ name)%string /\
  Path.basename (Path.join "downloads" name) = name.
Proof.
  cbv zeta.
  destruct (dir_name_chars original_tags) as (Hchars & Hall & Hne & Hlen).
  assert (Hslash : Text.mem Path.slash (dir_name original_tags) = false)
    by (apply (all_chars_mem dir_byte); [exact Hall|reflexivity]).
  assert (Hjoin : Path.join "downloads" (dir_name original_tags)
                  = ("downloads/" ++ dir_name original_tags)%string).
  { destruct (dir_name original_tags) as [|c s]; [congruence|].
    cbn [Text.mem] in Hslash. apply orb_false_iff in Hslash as [Hc _].
    unfold Path.join. rewrite Ascii.eqb_sym in Hc. rewrite Hc. reflexivity. }
  split; [exact Hne|]. split; [exact Hlen|]. split; [exact Hchars|].
  split; [exact Hslash|].
  split; [apply (all_chars_mem dir_byte); [exact Hall|reflexivity]|].
  split; [now apply all_chars_clean|].
  split; [exact Hjoin|].
  rewrite Hjoin. apply (basename_under "downloads"). exact Hslash.
Qed.

Example dir_name_of_path_like_tags :
  dir_name "../../etc  cat_girl (solo) 1girl" = "etc  catgirl solo 1girl".
Proof. reflexivity. Qed.

Example dir_name_of_symbols : dir_name "***" = "downloads".
Proof. reflexivity. Qed.

(** The ideographic space U+3000 is white space: it is stripped at the
    ends and kept inside a folder name, one character of three bytes. *)
Example dir_name_with_wide_space :
  let wide := Utf8.bytes [227; 128; 128] in
  Utf8.strip (wide ++ "a" ++ wide ++ "b" ++ wide) = ("a" ++ wide ++ "b")%string /\
  dir_name ("a" ++ wide ++ "b.") = ("a" ++ wide ++ "b")%string /\
  Utf8.len (dir_name ("a" ++ wide ++ "b.")) = 3%nat /\
  Utf8.strip wide = "".
Proof. vm_compute. repeat split; reflexivity. Qed.

(** ** Starting a download *)

(** Closes a goal with a hypothesis that puts an event in a trace that does
    not hold it. *)
Ltac in_nowhere :=
  repeat match goal with
    | H : In _ _ |- _ => progress cbn in H
    | H : _ \/ _ |- _ => destruct H as [H|H]
    | H : False |- _ => destruct H
    end;
  congruence.

(** X14: the button is disabled only for a started worker.  If
    [start_download] disables the download button, it ends with the worker
    started; and when it starts a worker, the tags are not empty, a check
    box is ticked, and the slot has done exactly this, in order: saved the
    configuration, set the searching status, made [downloads] and the
    folder of the query, disabled the button, shown the bar at 0 and
    started the worker. *)
Theorem X14_button_disabled_only_for_started_worker
    (f : form) (env : world) (write_config : string -> string -> option exn) :
  let t := fst (start_download f env write_config) in
  let o := snd (start_download f env write_config) in
  (In (SetButtonEnabled false) t -> exists w, o = Started w) /\
  (forall w, In (Start w) t -> o = Started w) /\
  (forall w,
      o = Started w ->
      Text.is_empty (Utf8.strip (tags_edit f)) = false /\
      ticked_exts f <> [] /\
      t = [SaveConfig (Utf8.strip (user_id_edit f)) (Utf8.strip (api_key_edit f));
           SetStatus searching_tags
             [S (tags w);
              S (Utf8.take 50 (underscore_blanks (Utf8.strip (tags_edit f))))];
           MakeDir "downloads"; MakeDir (download_dir w);
           SetButtonEnabled false; SetProgressVisible true; SetValue 0;
           Start w]).
Proof.
  cbv zeta. unfold start_download.
  destruct (Text.is_empty (Utf8.strip (tags_edit f)));
    [destruct (window_usable f enter_tags_error); cbn; repeat split;
       try congruence; intros; in_nowhere|].
  destruct (write_config _ _);
    [cbn; repeat split; try congruence; intros; in_nowhere|].
  destruct (window_usable f searching_tags); cbn [negb];
    [|cbn; repeat split; try congruence; intros; in_nowhere].
  destruct (ticked_exts f) as [|ext exts] eqn:Hexts;
    [destruct (window_usable f select_file_type_error); cbn; repeat split;
       try congruence; intros; in_nowhere|].
  destruct (makedirs env "downloads");
    [cbn; repeat split; try congruence; intros; in_nowhere|].
  destruct (makedirs env _);
    [cbn; repeat split; try congruence; intros; in_nowhere|].
  cbn. split; [intros _; eexists; reflexivity|].
  split.
  - intros w H. repeat (destruct H as [H|H]; [discriminate H|]).
    destruct H as [H|[]]. now injection H as <-.
  - intros w Hw. injection Hw as <-. cbn.
    split; [reflexivity|]. split; [discriminate|reflexivity].
Qed.

(** X15: what a rejected start leaves behind.  With tags that are empty
    once stripped of white space, the slot only sets the status that asks
    for tags: no configuration is saved.  With tags but no check box
    ticked, the stripped identifier and key have been saved and the
    searching status set, with the tags as sent and the first 50 characters
    of the typed tags with blanks replaced, before the status that asks for
    a file type; in both cases no directory is made and no worker is
    started. *)
Theorem X15_rejected_start
    (f : form) (env : world) (write_config : string -> string -> option exn) :
  (Text.is_empty (Utf8.strip (tags_edit f)) = true ->
   window_usable f enter_tags_error = true ->
   start_download f env write_config
   = ([SetStatus enter_tags_error []], Rejected)) /\
  (Text.is_empty (Utf8.strip (tags_edit f)) = false ->
   ticked_exts f = [] ->
   write_config (Utf8.strip (user_id_edit f)) (Utf8.strip (api_key_edit f)) = None ->
   window_usable f searching_tags = true ->
   window_usable f select_file_type_error = true ->
   start_download f env write_config
   = ([SaveConfig (Utf8.strip (user_id_edit f)) (Utf8.strip (api_key_edit f));
       SetStatus searching_tags
         [S (if no_ai_cb f
             then (Utf8.strip (tags_edit f) ++ " -ai-generated")%string
             else Utf8.strip (tags_edit f));
          S (Utf8.take 50 (underscore_blanks (Utf8.strip (tags_edit f))))];
       SetStatus select_file_type_error []], Rejected)).
Proof.
  unfold start_download. split.
  - intros -> ->. reflexivity.
  - intros -> -> -> Hs ->. rewrite Hs. reflexivity.
Qed.

(** X15 on tags of one blank and one ideographic space (U+3000), and on
    tags with no box ticked. *)
Lemma X15_rejected_start_witness :
  let env := Sample.net Sample.no_page in
  let blank := (" " ++ Utf8.bytes [227; 128; 128])%string in
  start_download (sample_form blank true true true) env (fun _ _ => None)
  = ([SetStatus enter_tags_error []], Rejected) /\
  start_download (sample_form " cat girl " false false false) env (fun _ _ => None)
  = ([SaveConfig "42" "abc";
      SetStatus searching_tags [S "cat girl -ai-generated"; S "cat_girl"];
      SetStatus select_file_type_error []], Rejected).
Proof.
  cbv zeta. split.
  - apply (proj1 (X15_rejected_start
                    (sample_form (" " ++ Utf8.bytes [227; 128; 128]) true true true)
                    (Sample.net Sample.no_page) (fun _ _ => None)));
      reflexivity.
  - apply (proj2 (X15_rejected_start (sample_form " cat girl " false false false)
                    (Sample.net Sample.no_page) (fun _ _ => None)));
      reflexivity.
Defined.

(** ** The worker the window starts *)

Lemma started_worker
    (f : form) (env : world) (write_config : string -> string -> option exn)
    (w : worker) :
  snd (start_download f env write_config) = Started w ->
  w = {| tags := if no_ai_cb f
                 then (Utf8.strip (tags_edit f) ++ " -ai-generated")%string
                 else Utf8.strip (tags_edit f);
         user_id := Utf8.strip (user_id_edit f);
         api_key := Utf8.strip (api_key_edit f);
         download_dir := Path.join "downloads" (dir_name (Utf8.strip (tags_edit f)));
         allowed_exts := ticked_exts f;
         usable := translator f |} /\
  ticked_exts f <> [].
Proof.
  unfold start_download.
  destruct (Text.is_empty (Utf8.strip (tags_edit f)));
    [destruct (window_usable f enter_tags_error); discriminate|].
  destruct (write_config _ _); [discriminate|].
  destruct (window_usable f searching_tags); cbn [negb]; [|discriminate].
  destruct (ticked_exts f) as [|ext exts];
    [destruct (window_usable f select_file_type_error); discriminate|].
  destruct (makedirs env "downloads"); [discriminate|].
  destruct (makedirs env _); [discriminate|].
  cbn. intros H. injection H as <-. split; [reflexivity|discriminate].
Qed.

Lemma ticked_exts_dirs (f : form) (ext : string) :
  in_exts ext (ticked_exts f) = true ->
  In (subdir_of ext) (ticked_dirs f) /\ ext <> EmptyString.
Proof.
  unfold ticked_exts, ticked_dirs, in_exts, image_exts, video_exts.
  destruct (images_cb f), (gif_cb f), (video_cb f); cbn [app existsb];
    intros H;
    repeat match type of H with
      | (String.eqb ext ?s || _) = true =>
          revert H; destruct (String.eqb_spec ext s) as [->|_]; intros H;
          [clear H; split; [cbn; tauto|discriminate]|cbn [orb] in H]
      end;
    discriminate H.
Qed.

(** X16: what the started worker is given.  The worker gets the stripped
    identifier and key, the stripped tags, followed by [ -ai-generated]
    exactly when that box is ticked, the table of the window, and the
    extensions of the ticked boxes, never none and never the empty
    extension; its download directory is [downloads/] followed by the
    folder name of the tags as typed, the same whether or not the box is
    ticked. *)
Theorem X16_started_worker_inputs
    (f : form) (env : world) (write_config : string -> string -> option exn)
    (w : worker) :
  snd (start_download f env write_config) = Started w ->
  user_id w = Utf8.strip (user_id_edit f) /\
  api_key w = Utf8.strip (api_key_edit f) /\
  tags w = (if no_ai_cb f
            then (Utf8.strip (tags_edit f) ++ " -ai-generated")%string
            else Utf8.strip (tags_edit f)) /\
  usable w = translator f /\
  allowed_exts w = ticked_exts f /\
  allowed_exts w <> [] /\
  in_exts "" (allowed_exts w) = false /\
  download_dir w
  = ("downloads/" ++ dir_name (Utf8.strip (tags_edit f)))%string /\
  Path.basename (download_dir w) = dir_name (Utf8.strip (tags_edit f)).
Proof.
  intros Hs. destruct (started_worker f env write_config w Hs) as [-> Hne].
  cbn [user_id api_key tags usable allowed_exts download_dir].
  repeat (split; [reflexivity|]).
  split; [exact Hne|]. split.
  - destruct (in_exts "" (ticked_exts f)) eqn:He; [|reflexivity].
    destruct (ticked_exts_dirs f "" He) as [_ Hn]. congruence.
  - destruct (dir_name_chars (Utf8.strip (tags_edit f))) as (_ & Hall & Hnn & _).
    assert (Hslash : Text.mem Path.slash (dir_name (Utf8.strip (tags_edit f))) = false)
      by (apply (all_chars_mem dir_byte); [exact Hall|reflexivity]).
    assert (Hjoin : Path.join "downloads" (dir_name (Utf8.strip (tags_edit f)))
                    = ("downloads/" ++ dir_name (Utf8.strip (tags_edit f)))%string).
    { destruct (dir_name (Utf8.strip (tags_edit f))) as [|c s]; [congruence|].
      cbn [Text.mem] in Hslash. apply orb_false_iff in Hslash as [Hc _].
      unfold Path.join. rewrite Ascii.eqb_sym in Hc. rewrite Hc. reflexivity. }
    split; [exact Hjoin|].
    rewrite Hjoin. apply (basename_under "downloads"). exact Hslash.
Qed.

(** X16 on the tags [ cat_girl solo ] with the box for AI posts ticked. *)
Lemma X16_started_worker_witness :
  let f := sample_form " cat_girl solo " true false false in
  exists w,
    snd (start_download f (Sample.net Sample.no_page) (fun _ _ => None))
    = Started w /\
    tags w = "cat_girl solo -ai-generated" /\
    user_id w = "42" /\
    download_dir w = "downloads/catgirl solo".
Proof.
  cbv zeta. eexists. split; [reflexivity|].
  pose proof (X16_started_worker_inputs
                (sample_form " cat_girl solo " true false false)
                (Sample.net Sample.no_page) (fun _ _ => None) _ eq_refl)
    as (Hu & _ & Ht & _ & _ & _ & _ & Hd & _).
  split; [exact Ht|]. split; [exact Hu|exact Hd].
Defined.

Lemma made_dirs_app (t1 t2 : list event) :
  made_dirs (t1 ++ t2) = made_dirs t1 ++ made_dirs t2.
Proof. unfold made_dirs. apply flat_map_app. Qed.

Lemma download_item_made_dirs
    (w : worker) (env : world) (total : Z) (p : post) (st : locals) :
  forall dir,
    In dir (made_dirs (trace_of (download_item w env total p st))) ->
    exists ext,
      in_exts ext (allowed_exts w) = true /\
      dir = Path.join (download_dir w) (subdir_of ext).
Proof.
  unfold_item. split_item.
  all: intros dir Hd; cbn in Hd;
    repeat match goal with
      | H : _ \/ _ |- _ => destruct H as [H|H]
      | H : False |- _ => destruct H
      end.
  all: eexists; split; [|symmetry; exact Hd].
  all: match goal with
       | H : negb (in_exts _ _) = false |- _ =>
           apply negb_false_iff in H; exact H
       end.
Qed.

Lemma download_loop_made_dirs
    (w : worker) (env : world) (total : Z) (l : list post) :
  forall st dir,
    In dir (made_dirs (trace_of (download_loop w env total l st))) ->
    exists ext,
      in_exts ext (allowed_exts w) = true /\
      dir = Path.join (download_dir w) (subdir_of ext).
Proof.
  induction l as [|p r IH]; intros st dir Hd; [destruct Hd|].
  cbn [download_loop] in Hd. unfold bind in Hd.
  pose proof (download_item_made_dirs w env total p st dir) as Hitem.
  destruct (download_item w env total p st) as [[t st'] [[]| |e|]];
    unfold trace_of in *; cbn [fst snd] in *; try (now apply Hitem).
  specialize (IH st' dir).
  destruct (download_loop w env total r st') as [[t2 st2] r2].
  cbn [fst snd] in *. rewrite made_dirs_app in Hd.
  apply in_app_or in Hd as [Hd|Hd]; [now apply Hitem|now apply IH].
Qed.

(** X17: only ticked categories get a folder.  For the worker that
    [start_download] starts, every directory the download loop makes is the
    folder [images], [GIF] or [videos] of a ticked check box, directly under
    the download directory: an unticked category never gets a folder. *)
Theorem X17_only_ticked_categories_get_folders
    (f : form) (env env' : world)
    (write_config : string -> string -> option exn) (w : worker)
    (total : Z) (l : list post) (st : locals) (dir : string) :
  snd (start_download f env write_config) = Started w ->
  In dir (made_dirs (trace_of (download_loop w env' total l st))) ->
  exists category,
    In category (ticked_dirs f) /\
    dir = Path.join (download_dir w) category.
Proof.
  intros Hs Hd.
  destruct (download_loop_made_dirs w env' total l st dir Hd)
    as (ext & Hext & ->).
  destruct (started_worker f env write_config w Hs) as [Hw _].
  exists (subdir_of ext). split; [|reflexivity].
  apply ticked_exts_dirs. rewrite Hw in Hext. exact Hext.
Qed.

(** X17 with only the box for images ticked and a batch of a picture, an
    animation and a film. *)
Lemma X17_only_ticked_categories_witness :
  let f := sample_form "cat" true false false in
  let env := Sample.net Sample.no_page in
  exists w,
    snd (start_download f env (fun _ _ => None)) = Started w /\
    made_dirs (trace_of (download_loop w env 3
                 [Sample.a_post 1 "https://h/a.png";
                  Sample.a_post 2 "https://h/b.gif";
                  Sample.a_post 3 "https://h/c.mp4"] init))
    = ["downloads/cat/images"] /\
    exists category,
      In category (ticked_dirs f) /\
      "downloads/cat/images" = Path.join (download_dir w) category.
Proof.
  cbv zeta. eexists. split; [reflexivity|]. split; [reflexivity|].
  apply (X17_only_ticked_categories_get_folders
           (sample_form "cat" true false false)
           (Sample.net Sample.no_page) (Sample.net Sample.no_page)
           (fun _ _ => None) _ 3
           [Sample.a_post 1 "https://h/a.png";
            Sample.a_post 2 "https://h/b.gif";
            Sample.a_post 3 "https://h/c.mp4"] init).
  - reflexivity.
  - left. reflexivity.
Defined.

(** ** Locale files *)

(** X18: English is the fallback, one step deep.  When [locales/en.json]
    exists, [load_translator] ends within two calls for every language: with
    what the file of the language gives when that file exists, and with
    what the English file gives otherwise. *)
Theorem X18_translator_falls_back_to_english
    (A : Type) (files : string -> option (exn + A)) (english : exn + A)
    (lang : string) (depth : nat) :
  files (locale_path "en") = Some english ->
  load_translator files (Datatypes.S (Datatypes.S depth)) lang
  = match files (locale_path lang) with
    | Some (inr table) => Table table
    | Some (inl e) => LoadError e
    | None =>
        match english with
        | inr table => Table table
        | inl e => LoadError e
        end
    end.
Proof.
  intros Hen. cbn [load_translator].
  destruct (files (locale_path lang)) as [[e|table]|]; try reflexivity.
  rewrite Hen. destruct english; reflexivity.
Qed.

(** X18 with only the English file present and French asked for. *)
Lemma X18_translator_fallback_witness :
  let files := fun path : string =>
    if String.eqb path "locales/en.json" then Some (inr 1%nat) else None in
  load_translator files 2 "fr" = Table 1%nat.
Proof.
  cbv zeta.
  rewrite (X18_translator_falls_back_to_english nat
             (fun path : string =>
                if String.eqb path "locales/en.json"
                then Some (inr 1%nat) else None)
             (inr 1%nat) "fr" 0 eq_refl).
  reflexivity.
Defined.



Lemma endswith_length (suffix s : string) :
  endswith suffix s = true -> (String.length suffix <= String.length s)%nat.
Proof.
  induction s as [|c s IH]; cbn [endswith]; intros H.
  - rewrite orb_false_r in H. apply String.eqb_eq in H. subst. cbn. lia.
  - apply orb_true_iff in H as [H|H].
    + apply String.eqb_eq in H. subst. lia.
    + specialize (IH H). cbn [String.length]. lia.
Qed.

(** Cutting a suffix off and putting it back. *)
Lemma drop_last_suffix (suffix s : string) :
  endswith suffix s = true ->
  (drop_last (String.length suffix) s ++ suffix)%string = s.
Proof.
  unfold drop_last. induction s as [|c s IH]; cbn [endswith]; intros H.
  - rewrite orb_false_r in H. apply String.eqb_eq in H. now subst.
  - destruct (String.eqb_spec suffix (String c s)) as [->|Hne].
    + rewrite Nat.sub_diag. reflexivity.
    + cbn [orb] in H. pose proof (endswith_length _ _ H) as Hlen.
      cbn [String.length].
      replace (Datatypes.S (String.length s) - String.length suffix)%nat
        with (Datatypes.S (String.length s - String.length suffix)) by lia.
      cbn [Text.take String.append]. now rewrite (IH H).
Qed.

(** X20: every language offered has its file.  The list of languages is
    never empty; each language in it is the name, without the five
    characters of [.json], of a listed file that ends in [.json], so that
    the path [load_translator] builds for it is that file in [locales]; the
    one exception is [en], offered alone when no listed file ends in
    [.json] or there is no [locales] directory. *)
Theorem X20_offered_languages_have_files (listing : option (list string)) :
  languages listing <> [] /\
  forall lang,
    In lang (languages listing) ->
    (exists files file,
        listing = Some files /\ In file files /\
        file = (lang ++ ".json")%string /\
        locale_path lang = ("locales/" ++ file)%string) \/
    (languages listing = ["en"] /\
     match listing with
     | Some files => filter (endswith ".json") files = []
     | None => True
     end).
Proof.
  unfold languages.
  destruct listing as [files|]; cbn [List.map filter].
  2:{ split; [discriminate|]. intros lang _. right. now split. }
  destruct (filter (endswith ".json") files) as [|file0 rest] eqn:Hf.
  { split; [discriminate|]. intros lang _. right. now split. }
  cbn [List.map]. split; [discriminate|]. intros lang Hin. left.
  change (In lang (List.map (drop_last 5) (file0 :: rest))) in Hin.
  apply in_map_iff in Hin as (file & <- & Hfile).
  rewrite <- Hf in Hfile. apply filter_In in Hfile as [Hfile Hjson].
  exists files, file. split; [reflexivity|]. split; [exact Hfile|].
  pose proof (drop_last_suffix ".json" file Hjson) as Hback.
  cbn [String.length] in Hback.
  split; [now rewrite Hback|].
  unfold locale_path. now rewrite Hback.
Qed.

Example languages_of_listing :
  languages (Some ["en.json"; "README.md"; "ru.json"; ".json"])
  = ["en"; "ru"; ""].
Proof. reflexivity. Qed.

Example languages_without_directory : languages None = ["en"].
Proof. reflexivity. Qed.

(** * Further properties of the total and of the extension *)

(** ** The total over the whole loop *)

Lemma fetch_page_total_stable (w : worker) (env : world) (st : locals) :
  (has_total st = true -> has_total (locals_of (fetch_page w env st)) = true) /\
  (total_count st <> 0 ->
   total_count (locals_of (fetch_page w env st)) = total_count st) /\
  (has_total (locals_of (fetch_page w env st)) = false ->
   total_count (locals_of (fetch_page w env st)) = total_count st).
Proof.
  unfold_page.
  destruct (server env (params_of w (pid st))) as [r|e]; cbn;
    [|repeat split].
  split_page.
  all: repeat match goal with
         | H : (_ =? _) = true |- _ => apply Z.eqb_eq in H
         | H : (_ =? _) = false |- _ => apply Z.eqb_neq in H
         end.
  all: repeat split; intros; cbn in *; congruence.
Qed.

(** X21: a total, once read, stays.  Over the whole pagination loop, a
    total that counts as known keeps counting as known, a stored total
    other than 0 is never replaced by a later page, and as long as no total
    counts as known the stored total is what it was. *)
Theorem X21_total_is_read_once
    (w : worker) (env : world) (fuel : nat) (st : locals) :
  let st' := locals_of (fetch_loop w env fuel st) in
  (has_total st = true -> has_total st' = true) /\
  (total_count st <> 0 -> total_count st' = total_count st) /\
  (has_total st' = false -> total_count st' = total_count st).
Proof.
  cbv zeta. revert st. induction fuel as [|fuel IH]; intros st.
  - cbn. repeat split; auto.
  - cbn [fetch_loop]. unfold bind.
    pose proof (fetch_page_total_stable w env st) as (Hh & Ht & Hu).
    destruct (fetch_page w env st) as [[t st1] [b| |e|]];
      unfold locals_of in *; cbn [fst snd] in *;
      try (split; [exact Hh|split; [exact Ht|exact Hu]]).
    destruct b; [|split; [exact Hh|split; [exact Ht|exact Hu]]].
    destruct (IH st1) as (Hh2 & Ht2 & Hu2).
    destruct (fetch_loop w env fuel st1) as [[t2 st2] r2].
    cbn [fst snd] in *. split; [|split].
    + intros H. apply Hh2, Hh, H.
    + intros H. rewrite Ht2; [now apply Ht|]. rewrite (Ht H). exact H.
    + intros H. rewrite (Hu2 H). apply Hu.
      destruct (has_total st1) eqn:H1; [|reflexivity].
      rewrite (Hh2 eq_refl) in H. discriminate H.
Qed.

(** ** The extension that decides *)

Lemma from_last_dot_app (a b : string) :
  Text.mem Path.dot b = true ->
  Path.from_last_dot (a ++ b)%string = Path.from_last_dot b.
Proof.
  intros Hb. induction a as [|c a IH]; [reflexivity|].
  cbn [String.append Path.from_last_dot].
  now rewrite mem_app, Hb, orb_true_r.
Qed.

Lemma sanitize_keeps_dots (s : string) :
  Text.mem Path.dot (Path.sanitize s) = Text.mem Path.dot s.
Proof.
  induction s as [|c s IH]; [reflexivity|].
  cbn [Path.sanitize Text.map Text.mem]. fold (Path.sanitize s). rewrite IH.
  f_equal. destruct (Path.illegal c) eqn:Hc; [|reflexivity].
  destruct (Ascii.eqb_spec Path.dot c) as [<-|_]; [discriminate Hc|reflexivity].
Qed.

Lemma sanitize_no_slash (s : string) :
  Text.mem Path.slash (Path.sanitize s) = false.
Proof.
  induction s as [|c s IH]; [reflexivity|].
  cbn [Path.sanitize Text.map Text.mem]. fold (Path.sanitize s). rewrite IH.
  rewrite orb_false_r. destruct (Path.illegal c) eqn:Hc; [reflexivity|].
  destruct (Ascii.eqb_spec Path.slash c) as [<-|_]; [discriminate Hc|reflexivity].
Qed.

Lemma ext_after_underscore (p q : string) :
  Text.mem Path.dot q = true ->
  Path.from_last_dot (Path.drop_dots (p ++ String "_" q)%string)
  = Path.from_last_dot q.
Proof.
  intros Hq.
  assert (Hu : Path.from_last_dot (String "_" q) = Path.from_last_dot q)
    by (cbn [Path.from_last_dot]; now rewrite Hq).
  assert (Hm : Text.mem Path.dot (String "_" q) = true)
    by (cbn [Text.mem]; rewrite Hq; apply orb_true_r).
  induction p as [|c p IH].
  - cbn [String.append Path.drop_dots]. exact Hu.
  - cbn [String.append Path.drop_dots].
    destruct (Ascii.eqb c Path.dot); [exact IH|].
    change (String c (p ++ String "_" q))
      with ((String c p) ++ String "_" q)%string.
    now rewrite (from_last_dot_app _ _ Hm).
Qed.

Lemma str_of_Z_decimal (n : Z) :
  all_chars decimal_char (str_of_Z n) = true /\ str_of_Z n <> EmptyString.
Proof.
  assert (Hu : forall d, all_chars decimal_char (NilEmpty.string_of_uint d) = true).
  { induction d; cbn [NilEmpty.string_of_uint]; try reflexivity;
      rewrite all_chars_cons, IHd; reflexivity. }
  assert (Hz : forall d,
             all_chars decimal_char (NilZero.string_of_uint d) = true /\
             NilZero.string_of_uint d <> EmptyString).
  { intros d. destruct d; (split; [first [reflexivity|apply (Hu _)]|discriminate]). }
  unfold str_of_Z, NilZero.string_of_int.
  destruct (Z.to_int n) as [d|d]; [apply Hz|].
  split; [|discriminate].
  rewrite all_chars_cons. now rewrite (proj1 (Hz d)).
Qed.

Lemma ext_of_jpg (s : string) :
  s <> EmptyString ->
  Text.mem Path.dot s = false ->
  Text.mem Path.slash s = false ->
  Path.splitext_ext (s ++ ".jpg")%string = ".jpg".
Proof.
  intros Hne Hdot Hslash. unfold Path.splitext_ext.
  rewrite basename_no_slash by (rewrite mem_app, Hslash; reflexivity).
  destruct s as [|c s]; [congruence|].
  cbn [Text.mem] in Hdot. apply orb_false_iff in Hdot as [Hc Hs].
  cbn [String.append Path.drop_dots].
  rewrite Ascii.eqb_sym in Hc. rewrite Hc.
  change (String c (s ++ ".jpg")) with ((String c s) ++ ".jpg")%string.
  now rewrite from_last_dot_app.
Qed.

(** X22: the identifier does not change the extension.  When the last
    component of the URL path is not empty and has a dot, the extension
    that decides whether a post is accepted, and its category, is the
    lower-cased extension of the sanitized component, whatever the post
    identifier; otherwise a post with an integer identifier has the
    extension [.jpg] and goes to [images]. *)
Theorem X22_extension_independent_of_identifier (path : string) :
  let base := Path.basename path in
  (Text.is_empty base || negb (Text.mem Path.dot base) = false ->
   forall post_id,
     target_ext (target_filename post_id path)
     = Text.lower (Path.from_last_dot (Path.sanitize base))) /\
  (Text.is_empty base || negb (Text.mem Path.dot base) = true ->
   forall n : Z,
     target_ext (target_filename (PInt n) path) = ".jpg" /\
     subdir_of (target_ext (target_filename (PInt n) path)) = "images").
Proof.
  cbv zeta. split.
  - intros Hb post_id.
    destruct (target_filename_spec post_id path) as (Hord & _).
    destruct (Hord Hb) as [-> _].
    apply orb_false_iff in Hb as [_ Hdot]. apply negb_false_iff in Hdot.
    unfold target_ext, Path.splitext_ext. f_equal.
    rewrite basename_no_slash by apply sanitize_no_slash.
    rewrite sanitize_app.
    change (Path.sanitize ("_" ++ Path.basename path))
      with (String "_" (Path.sanitize (Path.basename path))).
    apply ext_after_underscore. now rewrite sanitize_keeps_dots.
  - intros Hb n.
    destruct (target_filename_spec (PInt n) path) as (_ & Hsyn & _).
    rewrite (Hsyn Hb). cbn [py_str].
    destruct (str_of_Z_decimal n) as [Hall Hne].
    assert (Hext : target_ext (str_of_Z n ++ ".jpg") = ".jpg").
    { unfold target_ext. rewrite ext_of_jpg; [reflexivity|exact Hne| |].
      - apply (all_chars_mem decimal_char); [exact Hall|reflexivity].
      - apply (all_chars_mem decimal_char); [exact Hall|reflexivity]. }
    rewrite Hext. split; reflexivity.
Qed.

(** X22 on a URL with an upper-case extension and on one without any. *)
Lemma X22_extension_witness :
  target_ext (target_filename (PStr "../x") "/images/ab/f.PNG") = ".png" /\
  target_ext (target_filename (PInt (-5)) "/images/ab/file") = ".jpg".
Proof.
  split.
  - rewrite (proj1 (X22_extension_independent_of_identifier "/images/ab/f.PNG")
               eq_refl (PStr "../x")).
    reflexivity.
  - apply (proj2 (X22_extension_independent_of_identifier "/images/ab/file")
             eq_refl (-5)).
Defined.

(** ** The progress of the fetch phase *)

Lemma fetch_page_progress (w : worker) (env : world) (st : locals) :
  let out := fetch_page w env st in
  Text.len (posts st) <= Text.len (posts (locals_of out)) /\
  (progresses (trace_of out) = [] \/
   exists total,
     progresses (trace_of out) = [(Text.len (posts (locals_of out)), total)]).
Proof.
  cbv zeta. unfold_page.
  destruct (server env (params_of w (pid st))) as [r|e]; cbn;
    [|split; [lia|now left]].
  split_page.
  all: split;
    [ unfold Text.len; cbn; rewrite ?length_app; lia
    | first [ now left | right; eexists; reflexivity ] ].
Qed.

(** X23: the count of the fetch phase never goes back.  Each progress
    event of the pagination loop reports, as its current value, the size of
    the batch right after a page; these values lie between the size of the
    batch before the loop and its size after, and never decrease from one
    event to the next. *)
Theorem X23_fetch_progress_never_decreases
    (w : worker) (env : world) (fuel : nat) (st : locals) :
  let out := fetch_loop w env fuel st in
  Text.len (posts st) <= Text.len (posts (locals_of out)) /\
  Forall (fun cn => Text.len (posts st) <= fst cn
                    <= Text.len (posts (locals_of out)))
    (progresses (trace_of out)) /\
  StronglySorted (fun a b => fst a <= fst b) (progresses (trace_of out)).
Proof.
  cbv zeta. revert st. induction fuel as [|fuel IH]; intros st.
  - cbn. split; [lia|]. split; constructor.
  - cbn [fetch_loop]. unfold bind.
    pose proof (fetch_page_progress w env st) as [Hle Hprog].
    cbv zeta in Hle, Hprog.
    destruct (fetch_page w env st) as [[t st1] r1].
    unfold trace_of, locals_of in *. cbn [fst snd] in *.
    assert (Hpage :
      Text.len (posts st) <= Text.len (posts st1) /\
      Forall (fun cn => Text.len (posts st) <= fst cn <= Text.len (posts st1))
        (progresses t) /\
      StronglySorted (fun a b => fst a <= fst b) (progresses t)).
    { split; [exact Hle|].
      destruct Hprog as [->|[total ->]]; split; repeat constructor;
        cbn; lia. }
    destruct r1 as [b| |e|]; cbn [fst snd]; try exact Hpage.
    destruct b.
    + destruct (IH st1) as (Hle2 & Hall2 & Hsorted2).
      destruct (fetch_loop w env fuel st1) as [[t2 st2] r2].
      cbn [fst snd] in *. split; [lia|].
      rewrite progresses_app.
      assert (Hall2' : Forall (fun cn => Text.len (posts st) <= fst cn
                                         <= Text.len (posts st2))
                         (progresses t2)).
      { eapply Forall_impl; [|exact Hall2]. cbn. intros cn H. lia. }
      destruct Hprog as [->|[total ->]]; cbn [app].
      * split; [exact Hall2'|exact Hsorted2].
      * split.
        -- constructor; [cbn; lia|exact Hall2'].
        -- constructor; [exact Hsorted2|].
           eapply Forall_impl; [|exact Hall2]. cbn. intros cn H. lia.
    + unfold ret. cbn [fst snd]. rewrite app_nil_r. exact Hpage.
Qed.
